(** * Schedify: task visibility, work-log validation, ordering and storage lookups

    A shallow embedding of the TypeScript sources

      - [src/types]            (Task, TaskLog)
      - [src/app/page.tsx]     (isTimeRangeOverlap, shouldTaskAppearOnDate,
                                moveTask, exportWeeklyReport)
      - [src/components/TaskCard.tsx]
                               (isTimeRangeOverlap, calculateDuration,
                                handleAddLog, handleDeleteLog)
      - [src/lib/db.ts]        (getTasksByDate, getTasksByDateRange, getAllTasks)

    JavaScript numbers are modelled as integers extended with NaN, strings
    as [string] (a byte sequence, read as UTF-8), optional fields as
    [option], arrays as lists.  What the JavaScript engine provides
    ([Date.parse], [Number]) is an interface, [JsRuntime], that fixes the
    behaviour ECMAScript fixes and leaves the rest to the engine. *)

From Stdlib Require Import ZArith List Bool Ascii String DecimalString Lia Permutation Sorted.
Import ListNotations.

Local Open Scope string_scope.
Local Open Scope list_scope.
Local Open Scope Z_scope.

(* ================================================================== *)
(** ** JavaScript numbers: integers and NaN *)

Inductive number : Type :=
| Num (z : Z)
| NaN.

(** The relational operators; every comparison with NaN is false. *)
Definition num_ltb (a b : number) : bool :=
  match a, b with Num x, Num y => x <? y | _, _ => false end.
Definition num_leb (a b : number) : bool :=
  match a, b with Num x, Num y => x <=? y | _, _ => false end.
Definition num_gtb (a b : number) : bool := num_ltb b a.
Definition num_geb (a b : number) : bool := num_leb b a.

Definition num_add (a b : number) : number :=
  match a, b with Num x, Num y => Num (x + y) | _, _ => NaN end.
Definition num_sub (a b : number) : number :=
  match a, b with Num x, Num y => Num (x - y) | _, _ => NaN end.
Definition num_mul (a b : number) : number :=
  match a, b with Num x, Num y => Num (x * y) | _, _ => NaN end.

(** [v || 0] on a number that may be undefined. *)
Definition or_zero (v : option number) : number :=
  match v with
  | Some (Num z) => Num z
  | Some NaN => Num 0
  | None => Num 0
  end.

(* ================================================================== *)
(** ** Strings: digits, [split], truthiness *)

Definition digit (c : ascii) : option Z :=
  let n := Z.of_N (N_of_ascii c) in
  if (48 <=? n) && (n <=? 57) then Some (n - 48) else None.

Definition two_digits (a b : ascii) : option Z :=
  match digit a, digit b with
  | Some x, Some y => Some (10 * x + y)
  | _, _ => None
  end.

Definition four_digits (a b c d : ascii) : option Z :=
  match two_digits a b, two_digits c d with
  | Some x, Some y => Some (100 * x + y)
  | _, _ => None
  end.

(** A non-empty string of decimal digits, read in base ten. *)
Fixpoint digits_value (acc : Z) (s : string) : option Z :=
  match s with
  | EmptyString => Some acc
  | String c s' =>
      match digit c with
      | Some d => digits_value (10 * acc + d) s'
      | None => None
      end
  end.

Definition parseDigits (s : string) : option Z :=
  match s with
  | EmptyString => None
  | _ => digits_value 0 s
  end.

(** [s.split(sep)] for a one-character separator. *)
Fixpoint split (sep : ascii) (s : string) : list string :=
  match s with
  | EmptyString => [EmptyString]
  | String c s' =>
      if Ascii.eqb c sep then EmptyString :: split sep s'
      else match split sep s' with
           | [] => [String c EmptyString]
           | p :: ps => String c p :: ps
           end
  end.

(** Truthiness of an optional string: [undefined] and [''] are falsy. *)
Definition truthy (v : option string) : bool :=
  match v with
  | Some s => negb (s =? EmptyString)%string
  | None => false
  end.

(* ================================================================== *)
(** ** Calendar arithmetic of ECMAScript time values *)

Definition msPerDay : Z := 86400000.
Definition msPerMinute : Z := 60000.

Definition InLeapYear (y : Z) : bool :=
  (y mod 4 =? 0) && (negb (y mod 100 =? 0) || (y mod 400 =? 0)).

Definition DaysInYear (y : Z) : Z := if InLeapYear y then 366 else 365.

(** Day number of 1 January of year [y]; day 0 is 1970-01-01. *)
Definition DayFromYear (y : Z) : Z :=
  365 * (y - 1970) + (y - 1969) / 4 - (y - 1901) / 100 + (y - 1601) / 400.

Definition DaysInMonth (y m : Z) : Z :=
  if m =? 2 then (if InLeapYear y then 29 else 28)
  else if (m =? 4) || (m =? 6) || (m =? 9) || (m =? 11) then 30
  else 31.

(** Days of year [y] that precede month [m] (1 = January). *)
Definition DaysBeforeMonth (y m : Z) : Z :=
  let l := if InLeapYear y then 1 else 0 in
  if m =? 1 then 0
  else if m =? 2 then 31
  else if m =? 3 then 59 + l
  else if m =? 4 then 90 + l
  else if m =? 5 then 120 + l
  else if m =? 6 then 151 + l
  else if m =? 7 then 181 + l
  else if m =? 8 then 212 + l
  else if m =? 9 then 243 + l
  else if m =? 10 then 273 + l
  else if m =? 11 then 304 + l
  else 334 + l.

Definition MakeDay (y m d : Z) : Z :=
  DayFromYear y + DaysBeforeMonth y m + (d - 1).

(** A calendar date: year, month (1..12), day of month. *)
Definition CalDate : Type := (Z * Z * Z)%type.

Definition valid_date (c : CalDate) : bool :=
  let '(y, m, d) := c in
  (0 <=? y) && (y <=? 9999) && (1 <=? m) && (m <=? 12)
  && (1 <=? d) && (d <=? DaysInMonth y m).

(** Calendar order: lexicographic on (year, month, day). *)
Definition cal_le (a b : CalDate) : Prop :=
  let '(y1, m1, d1) := a in
  let '(y2, m2, d2) := b in
  y1 < y2 \/ (y1 = y2 /\ (m1 < m2 \/ (m1 = m2 /\ d1 <= d2))).

Definition cal_leb (a b : CalDate) : bool :=
  let '(y1, m1, d1) := a in
  let '(y2, m2, d2) := b in
  (y1 <? y2) || ((y1 =? y2) && ((m1 <? m2) || ((m1 =? m2) && (d1 <=? d2)))).

(** The date-only form [YYYY-MM-DD] of the ECMAScript date-time string
    format, for a date that exists in the calendar. *)
Definition parseDateOnly (s : string) : option CalDate :=
  match s with
  | String y1 (String y2 (String y3 (String y4 (String h1
      (String m1 (String m2 (String h2 (String d1 (String d2
        EmptyString))))))))) =>
      if Ascii.eqb h1 "-" && Ascii.eqb h2 "-" then
        match four_digits y1 y2 y3 y4, two_digits m1 m2, two_digits d1 d2 with
        | Some y, Some m, Some d =>
            if valid_date (y, m, d) then Some (y, m, d) else None
        | _, _, _ => None
        end
      else None
  | _ => None
  end.

(** A same-day time [HH:mm], 00:00 to 23:59, as (hours, minutes). *)
Definition parseHHmm (s : string) : option (Z * Z) :=
  match s with
  | String a (String b (String c (String d (String e EmptyString)))) =>
      if Ascii.eqb c ":" then
        match two_digits a b, two_digits d e with
        | Some h, Some mi =>
            if (h <=? 23) && (mi <=? 59) then Some (h, mi) else None
        | _, _ => None
        end
      else None
  | _ => None
  end.

(** Minutes since midnight of a well-formed [HH:mm] string. *)
Definition minutesOf (s : string) : option Z :=
  match parseHHmm s with
  | Some (h, mi) => Some (h * 60 + mi)
  | None => None
  end.

(* ================================================================== *)
(** ** The JavaScript engine *)

(** [Date_parse s] is [new Date(s).getTime()], [ToNumber s] is
    [Number(s)].  ECMAScript fixes the result on its own date-time string
    format (a date-only string is UTC midnight, a date-time string without
    offset is local time, [LocalTZA] milliseconds ahead of UTC) and on
    decimal digit strings, exactly so below 2^53; other strings are left
    to the engine, which answers NaN for what it cannot read. *)
Class JsRuntime : Type := {
  Date_parse : string -> number;
  ToNumber : string -> number;
  LocalTZA : Z;
  Date_parse_date_only :
    forall s y m d,
      parseDateOnly s = Some (y, m, d) ->
      Date_parse s = Num (MakeDay y m d * msPerDay);
  Date_parse_local_time :
    forall s h mi,
      parseHHmm s = Some (h, mi) ->
      Date_parse ("1970-01-01T" ++ s)%string = Num ((h * 60 + mi) * msPerMinute - LocalTZA);
  ToNumber_digits :
    forall s n,
      parseDigits s = Some n -> n < 2 ^ 53 -> ToNumber s = Num n
}.

(** [new Date(v).getTime()] for a value that may be undefined. *)
Definition Date_getTime `{JsRuntime} (v : option string) : number :=
  match v with
  | Some s => Date_parse s
  | None => NaN
  end.

(* ================================================================== *)
(** ** The data model ([src/types]) *)

Module TaskLog.
Record t : Type := mk {
  id : string;
  date : string;        (* YYYY-MM-DD *)
  startTime : string;   (* HH:mm *)
  endTime : string;     (* HH:mm *)
  duration : number     (* minutes *)
}.
End TaskLog.

(** The fields that no modelled function reads or writes
    (startTime, endTime, category, tags, priority, recurrence, projectId)
    are left out; object spreads carry them along unchanged. *)
Module Task.
Record t : Type := mk {
  id : string;
  title : string;
  description : string;
  date : string;                      (* YYYY-MM-DD *)
  isAdHoc : bool;
  order : Z;
  completed : bool;
  completedAt : option string;
  deadline : option string;
  startDate : option string;
  endDate : option string;
  logs : option (list TaskLog.t);
  totalDuration : option number
}.

Definition with_order (o : Z) (x : t) : t :=
  mk (id x) (title x) (description x) (date x) (isAdHoc x) o (completed x)
     (completedAt x) (deadline x) (startDate x) (endDate x) (logs x)
     (totalDuration x).

Definition with_logs (l : list TaskLog.t) (total : number) (x : t) : t :=
  mk (id x) (title x) (description x) (date x) (isAdHoc x) (order x)
     (completed x) (completedAt x) (deadline x) (startDate x) (endDate x)
     (Some l) (Some total).
End Task.

(** [task.logs || []] *)
Definition logs_or_empty (v : option (list TaskLog.t)) : list TaskLog.t :=
  match v with
  | Some l => l
  | None => []
  end.

(* ================================================================== *)
(** ** Array operations *)

Section Arrays.
Context {A : Type}.

(** [arr.findIndex(p)]; [None] stands for -1. *)
Fixpoint findIndex (p : A -> bool) (l : list A) : option nat :=
  match l with
  | [] => None
  | x :: l' =>
      if p x then Some 0%nat
      else match findIndex p l' with
           | Some i => Some (S i)
           | None => None
           end
  end.

(** [arr.splice(i, 1)]: the array without its element at index [i]. *)
Definition splice_remove (i : nat) (l : list A) : list A :=
  firstn i l ++ skipn (S i) l.

(** [arr.splice(i, 0, x)]: [x] inserted at index [i], at the end when
    [i] exceeds the length. *)
Definition splice_insert (i : nat) (x : A) (l : list A) : list A :=
  firstn i l ++ x :: skipn i l.

(** [arr.sort(cmp)]: a stable sort; [cmp a b <= 0] keeps [a] before [b]. *)
Fixpoint sort_insert (cmp : A -> A -> Z) (x : A) (l : list A) : list A :=
  match l with
  | [] => [x]
  | y :: l' =>
      if cmp x y <=? 0 then x :: y :: l' else y :: sort_insert cmp x l'
  end.

Fixpoint sort (cmp : A -> A -> Z) (l : list A) : list A :=
  match l with
  | [] => []
  | x :: l' => sort_insert cmp x (sort cmp l')
  end.
End Arrays.

(** [set.has(k)] on a set of strings. *)
Definition has (s : list string) (k : string) : bool :=
  existsb (fun k' => (k' =? k)%string) s.

(* ================================================================== *)
(** ** [src/lib/db.ts] *)

Module Db.

(** The object store 'tasks' (keyPath 'id'): its records in primary key
    order.  A well-formed store holds no two records with one id. *)
Definition Store : Type := list Task.t.

Definition store_ok (store : Store) : Prop := NoDup (map Task.id store).

(** The string ['\uffff'], in UTF-8. *)
Definition uFFFF : string :=
  String (ascii_of_nat 239) (String (ascii_of_nat 191)
    (String (ascii_of_nat 191) EmptyString)).

(** [IDBKeyRange.bound(lo, hi).includes(k)] on string keys, compared
    byte by byte; on UTF-8 that is the order of code points, which is the
    key order of IndexedDB for strings of the basic plane. *)
Definition in_bound (lo hi k : string) : bool :=
  String.leb lo k && String.leb k hi.

(** What the two cursor loops accumulate. *)
Record Acc : Type := mkAcc {
  tasks : list Task.t;
  seenIds : list string
}.

(** [task.startDate || task.date || ''] *)
Definition date_or (v : option string) (date : string) : option string :=
  if truthy v then v
  else if truthy (Some date) then Some date
  else Some EmptyString.

(** The defaults that [getAllTasks], [updateTask] and
    [batchUpdateTaskOrder] fill in. *)
Definition withDefaults (task : Task.t) : Task.t :=
  Task.mk (Task.id task) (Task.title task) (Task.description task)
    (Task.date task) (Task.isAdHoc task) (Task.order task)
    (Task.completed task) (Task.completedAt task) (Task.deadline task)
    (date_or (Task.startDate task) (Task.date task))
    (date_or (Task.endDate task) (Task.date task))
    (Some (logs_or_empty (Task.logs task)))
    (Some (or_zero (Task.totalDuration task))).

Definition getAllTasks (store : Store) : list Task.t :=
  map withDefaults store.

Section WithRuntime.
Context `{R : JsRuntime}.

(** One step of the cursor over the index 'by-date' at key [date]. *)
Definition dateStep (acc : Acc) (value : Task.t) : Acc :=
  mkAcc (tasks acc ++ [value]) (Task.id value :: seenIds acc).

(** One step of the cursor over the whole store. *)
Definition rangeStep (date : string) (acc : Acc) (task : Task.t) : Acc :=
  if truthy (Task.startDate task) && truthy (Task.endDate task) then
    let currentDate := Date_getTime (Some date) in
    let startDate := Date_getTime (Task.startDate task) in
    let endDate := Date_getTime (Task.endDate task) in
    if num_geb currentDate startDate && num_leb currentDate endDate
       && negb (has (seenIds acc) (Task.id task))
    then mkAcc (tasks acc ++ [task]) (seenIds acc)
    else acc
  else acc.

Definition getTasksByDate (store : Store) (date : string) : list Task.t :=
  (* store.index('by-date').openCursor(IDBKeyRange.only(date)) *)
  let byDate := filter (fun t => (Task.date t =? date)%string) store in
  let acc1 := fold_left dateStep byDate (mkAcc [] []) in
  (* store.openCursor(IDBKeyRange.bound('', '\uffff')) *)
  let inRange := filter (fun t => in_bound EmptyString uFFFF (Task.id t)) store in
  let acc2 := fold_left (rangeStep date) inRange acc1 in
  (* (a.order || 0) - (b.order || 0), and n || 0 is n on integers *)
  sort (fun a b => Task.order a - Task.order b) (tasks acc2).

(** One step of the second cursor of [getTasksByDateRange]. *)
Definition overlapStep (startDate endDate : string) (acc : Acc)
           (task : Task.t) : Acc :=
  if truthy (Task.startDate task) && truthy (Task.endDate task)
     && negb (has (seenIds acc) (Task.id task)) then
    let taskStart := Date_getTime (Task.startDate task) in
    let taskEnd := Date_getTime (Task.endDate task) in
    let rangeStart := Date_getTime (Some startDate) in
    let rangeEnd := Date_getTime (Some endDate) in
    if (num_geb taskStart rangeStart && num_leb taskStart rangeEnd)
       || (num_geb taskEnd rangeStart && num_leb taskEnd rangeEnd)
       || (num_leb taskStart rangeStart && num_geb taskEnd rangeEnd)
    then mkAcc (tasks acc ++ [task]) (seenIds acc)
    else acc
  else acc.

(** The index 'by-date' lists records by date, then by primary key.
    [IDBKeyRange.bound] throws when the lower bound exceeds the upper
    one, which rejects the promise: [None]. *)
Definition getTasksByDateRange (store : Store) (startDate endDate : string)
  : option (list Task.t) :=
  if String.ltb endDate startDate then None
  else
    let index :=
      sort (fun a b => match String.compare (Task.date a) (Task.date b) with
                       | Lt => -1 | Eq => 0 | Gt => 1
                       end) store in
    let byDate := filter (fun t => in_bound startDate endDate (Task.date t)) index in
    let acc1 := fold_left dateStep byDate (mkAcc [] []) in
    let acc2 := fold_left (overlapStep startDate endDate) store acc1 in
    Some (tasks acc2).

End WithRuntime.

(** *** Writes *)

(** [store.put(record)]: the record replaces the one with its key, or
    enters the store at the place of its key. *)
Fixpoint put (record : Task.t) (store : Store) : Store :=
  match store with
  | [] => [record]
  | t :: store' =>
      match String.compare (Task.id record) (Task.id t) with
      | Eq => record :: store'
      | Lt => record :: t :: store'
      | Gt => t :: put record store'
      end
  end.

Definition hasKey (store : Store) (id : string) : bool :=
  existsb (fun t => (Task.id t =? id)%string) store.

(** [addTask], with [now] for [Date.now().toString()].  [store.add]
    refuses a key that the store holds, which rejects the promise:
    [None].  On integers and booleans [v || 0] and [v || false] are [v],
    and on a string [v || ''] is [v]. *)
Definition addTask (now : string) (task : Task.t) (store : Store)
  : option (Task.t * Store) :=
  let taskWithDefaults :=
    Task.mk now (Task.title task) (Task.description task) (Task.date task)
      (Task.isAdHoc task) (Task.order task) (Task.completed task)
      (Task.completedAt task) (Task.deadline task)
      (date_or (Task.startDate task) (Task.date task))
      (date_or (Task.endDate task) (Task.date task))
      (Some (logs_or_empty (Task.logs task)))
      (Some (or_zero (Task.totalDuration task))) in
  if hasKey store now then None
  else Some (taskWithDefaults, put taskWithDefaults store).

Definition updateTask (task : Task.t) (store : Store) : Store :=
  let updatedTask := withDefaults task in
  put updatedTask store.

Definition deleteTask (id : string) (store : Store) : Store :=
  filter (fun t => negb (Task.id t =? id)%string) store.

Definition batchUpdateTaskOrder (tasks : list Task.t) (store : Store) : Store :=
  fold_left (fun store task => put (withDefaults task) store) tasks store.

(** The upgrade to version 4 in [onupgradeneeded]: every record read by
    [getAll] is written back with the defaults. *)
Definition upgradeToV4 (store : Store) : Store :=
  fold_left (fun store' task => put (withDefaults task) store') store store.

End Db.

(* ================================================================== *)
(** ** [src/app/page.tsx] *)

Module Page.
Section WithRuntime.
Context `{R : JsRuntime}.

Definition isTimeRangeOverlap (newStart newEnd : string)
           (existingLogs : list TaskLog.t) : bool :=
  let newStartTime := Date_parse ("1970-01-01T" ++ newStart)%string in
  let newEndTime := Date_parse ("1970-01-01T" ++ newEnd)%string in
  existsb (fun log =>
    let logStartTime := Date_parse ("1970-01-01T" ++ TaskLog.startTime log)%string in
    let logEndTime := Date_parse ("1970-01-01T" ++ TaskLog.endTime log)%string in
    (num_geb newStartTime logStartTime && num_ltb newStartTime logEndTime)
    || (num_gtb newEndTime logStartTime && num_leb newEndTime logEndTime)
    || (num_leb newStartTime logStartTime && num_geb newEndTime logEndTime))
    existingLogs.

Definition shouldTaskAppearOnDate (task : Task.t) (dateStr : string) : bool :=
  if Task.isAdHoc task then (Task.date task =? dateStr)%string
  else if truthy (Task.startDate task) && truthy (Task.endDate task) then
    let current := Date_getTime (Some dateStr) in
    let start := Date_getTime (Task.startDate task) in
    let end_ := Date_getTime (Task.endDate task) in
    num_geb current start && num_leb current end_
  else (Task.date task =? dateStr)%string.

(** The prop [validateTimeRange] that both renderings of a TaskCard
    receive: it takes (startTime, endTime) and checks them against
    [task.logs || []]; a third argument passed to it is dropped. *)
Definition validateTimeRange (task : Task.t)
  : string -> string -> list TaskLog.t -> bool :=
  fun startTime endTime _ =>
    isTimeRangeOverlap startTime endTime (logs_or_empty (Task.logs task)).

End WithRuntime.

Definition incomplete_ (t : Task.t) : bool := negb (Task.completed t).

(** [newTasks.map(task => !task.completed ? {...task, order: orderCounter++} : task)],
    with the counter threaded through. *)
Fixpoint renumber (orderCounter : Z) (l : list Task.t) : list Task.t :=
  match l with
  | [] => []
  | task :: l' =>
      if negb (Task.completed task)
      then Task.with_order orderCounter task :: renumber (orderCounter + 1) l'
      else task :: renumber orderCounter l'
  end.

(** The state updater of [moveTask]: the new [tasks] state, and the
    batch handed to [db.batchUpdateTaskOrder] (none on the early
    returns). *)
Definition moveTask (dragIndex hoverIndex : nat) (prevTasks : list Task.t)
  : list Task.t * option (list Task.t) :=
  let newTasks := prevTasks in
  let incomplete := filter incomplete_ newTasks in
  let dragId := option_map Task.id (nth_error incomplete dragIndex) in
  let hoverId := option_map Task.id (nth_error incomplete hoverIndex) in
  if negb (truthy dragId) || negb (truthy hoverId) then (prevTasks, None)
  else
    let dragActualIndex :=
      findIndex (fun t => match dragId with
                          | Some i => (Task.id t =? i)%string
                          | None => false
                          end) newTasks in
    let hoverActualIndex :=
      findIndex (fun t => match hoverId with
                          | Some i => (Task.id t =? i)%string
                          | None => false
                          end) newTasks in
    match dragActualIndex, hoverActualIndex with
    | Some dragActualIndex, Some hoverActualIndex =>
        match nth_error newTasks dragActualIndex with
        | Some draggedTask =>
            let newTasks1 := splice_remove dragActualIndex newTasks in
            let newTasks2 := splice_insert hoverActualIndex draggedTask newTasks1 in
            let updatedTasks := renumber 0 newTasks2 in
            let tasksToUpdate := filter incomplete_ updatedTasks in
            (updatedTasks, Some tasksToUpdate)
        | None => (prevTasks, None) (* not reached: the index is one of newTasks *)
        end
    | _, _ => (prevTasks, None)
    end.

(** *** The weekly report *)

(** A row of a weekday sheet; the columns are, in order,
    任务名称, 任务描述, 开始时间, 结束时间, 持续时间, 总时长, 状态. *)
Record WeeklyTaskRecord : Type := mkRecord {
  col_name : string;
  col_description : string;
  col_start : string;
  col_end : string;
  col_duration : string;
  col_total : string;
  col_status : string
}.

Record Workbook : Type := mkWorkbook {
  sheets : list (string * list WeeklyTaskRecord)
}.

(** How [exportWeeklyReport] ends: the file handed to [XLSX.writeFile],
    or the message of the [alert] in its catch block. *)
Inductive ExportOutcome : Type :=
| Written (fileName : string) (wb : Workbook)
| Alerted (msg : string).

Definition days : list string :=
  ["周一"; "周二"; "周三"; "周四"; "周五"; "周六"; "周日"].

(** A number inside a template literal. *)
Definition show (n : number) : string :=
  match n with
  | Num z => NilZero.string_of_int (Z.to_int z)
  | NaN => "NaN"
  end.

(** [`${Math.floor(d/60)}小时${d%60}分钟`] *)
Definition hoursMinutes (d : number) : string :=
  match d with
  | Num z => (show (Num (z / 60)) ++ "小时" ++ show (Num (Z.rem z 60)) ++ "分钟")%string
  | NaN => "NaN小时NaN分钟"
  end.

Definition taskRows (task : Task.t) : list WeeklyTaskRecord :=
  let total := hoursMinutes (or_zero (Task.totalDuration task)) in
  let status := if Task.completed task then "已完成" else "进行中" in
  match Task.logs task with
  | Some ((_ :: _) as logs) =>
      map (fun log =>
             mkRecord (Task.title task) (Task.description task)
               (TaskLog.startTime log) (TaskLog.endTime log)
               (hoursMinutes (TaskLog.duration log)) total status) logs
  | _ =>
      [mkRecord (Task.title task) (Task.description task)
         "无记录" "无记录" "0分钟" total status]
  end.

Definition noTasksRow : WeeklyTaskRecord :=
  mkRecord "无任务记录" EmptyString EmptyString EmptyString EmptyString
    EmptyString EmptyString.

(** The identifiers in scope inside the try block of
    [exportWeeklyReport]: its own constants, those of the enclosing
    component and of the module, and the globals it uses. *)
Definition exportScope : list string :=
  ["today"; "startOfWeekDate"; "endOfWeekDate"; "allTasks"; "weeklyData";
   "days"; "wb"; "summaryData"; "summarySheet"; "weekRange";
   "currentDate"; "setCurrentDate"; "tasks"; "setTasks"; "monthTasks";
   "setMonthTasks"; "view"; "setView"; "touchStartX"; "setTouchStartX";
   "direction"; "setDirection"; "prevDirectionRef"; "loading"; "setLoading";
   "taskToDelete"; "setTaskToDelete"; "refreshTrigger"; "setRefreshTrigger";
   "showTaskForm"; "setShowTaskForm"; "isAdHoc"; "setIsAdHoc";
   "taskTypeRef"; "formRef"; "incompleteTasks"; "completedTasks";
   "handleTouchStart"; "handleTouchEnd"; "deleteTask"; "requestDelete";
   "nextDay"; "prevDay"; "nextMonth"; "prevMonth"; "goToday"; "changeView";
   "handleDateClick"; "handleKeyDown"; "loadTasks"; "loadMonthTasks";
   "handleAddTask"; "handleUpdateTask"; "moveTask"; "exportWeeklyReport";
   "CalendarView"; "isTimeRangeOverlap"; "shouldTaskAppearOnDate";
   "generateTaskColor"; "DraggableTaskCard"; "ScheduleManager";
   "useState"; "useEffect"; "useRef"; "useCallback"; "useMemo"; "format";
   "addDays"; "subDays"; "addMonths"; "subMonths"; "startOfMonth";
   "endOfMonth"; "eachDayOfInterval"; "isSameDay"; "startOfWeek";
   "endOfWeek"; "db"; "XLSX"; "TaskForm"; "TaskCard"; "motion";
   "AnimatePresence"; "DndProvider"; "HTML5Backend"; "useDrag"; "useDrop";
   "Date"; "Math"; "parseInt"; "console"; "alert"].

(** Reading an identifier: [None] is a ReferenceError. *)
Definition resolve {A : Type} (scope : list string) (name : string)
           (value : A) : option A :=
  if has scope name then Some value else None.

Section Report.
Context `{R : JsRuntime}.

(** [weeklyData[days[i]]] for the day whose formatted date is [dateStr]. *)
Definition dayRows (allTasks : list Task.t) (dateStr : string)
  : list WeeklyTaskRecord :=
  let dailyTasks := filter (fun task => shouldTaskAppearOnDate task dateStr) allTasks in
  match flat_map taskRows dailyTasks with
  | [] => [noTasksRow]
  | rows => rows
  end.

(** [exportWeeklyReport] on the store contents (read without a storage
    error), the seven dates of the
    current week formatted yyyy-MM-dd (date-fns computes them from
    today) and the week range formatted yyyyMMdd-yyyyMMdd.  The summary
    rows are a constant that is computed and never read; the sheet is
    built from another identifier. *)
Definition exportWeeklyReport (store : Db.Store) (weekDates : list string)
           (weekRange : string) : ExportOutcome :=
  let allTasks := Db.getAllTasks store in
  let weeklyData :=
    map (fun '(day, dateStr) => (day, dayRows allTasks dateStr))
        (combine days weekDates) in
  let wb := mkWorkbook weeklyData in
  match resolve exportScope "summaryDataForExport" ("周汇总", @nil WeeklyTaskRecord) with
  | Some summarySheet =>
      Written ("工作周报_" ++ weekRange ++ ".xlsx")%string
              (mkWorkbook (sheets wb ++ [summarySheet]))
  | None => Alerted "导出周报失败，请重试"
  end.

End Report.

(** *** The views *)


(** The comparator result that [sort] uses: NaN counts as 0. *)
Definition cmpResult (v : number) : Z :=
  match v with
  | Num z => z
  | NaN => 0
  end.





(** The memo [incompleteTasks] of the component. *)
Definition incompleteTasks (tasks : list Task.t) : list Task.t :=
  sort (fun a b => Task.order a - Task.order b) (filter incomplete_ tasks).

Section Views.
Context `{R : JsRuntime}.

(** [a.completedAt ? new Date(a.completedAt).getTime() : 0] *)
Definition completedTime (a : Task.t) : number :=
  if truthy (Task.completedAt a) then Date_getTime (Task.completedAt a)
  else Num 0.

(** The memo [completedTasks] of the component. *)
Definition completedTasks (tasks : list Task.t) : list Task.t :=
  sort (fun a b => cmpResult (num_sub (completedTime b) (completedTime a)))
       (filter Task.completed tasks).



(** [handleAddTask] on the store, with [tasks] the state of the day:
    the created task and the new store, or [None] when the write is
    rejected. *)
Definition handleAddTask (now : string) (task : Task.t)
           (tasks : list Task.t) (store : Db.Store)
  : option (Task.t * Db.Store) :=
  let newTask :=
    Task.mk (Task.id task) (Task.title task) (Task.description task)
      (Task.date task) (Task.isAdHoc task)
      (Z.of_nat (List.length (incompleteTasks tasks)))
      (Task.completed task) (Task.completedAt task) (Task.deadline task)
      (Task.startDate task) (Task.endDate task) (Some []) (Some (Num 0)) in
  Db.addTask now newTask store.


End Views.
End Page.

(* ================================================================== *)
(** ** [src/components/TaskCard.tsx] *)

Module TaskCard.

Record NewLog : Type := mkNewLog {
  date : string;
  startTime : string;
  endTime : string;
  duration : number
}.

(** The component state that the log handlers read and write. *)
Record State : Type := mkState {
  localTask : Task.t;
  newLog : NewLog;
  showLogForm : bool
}.

(** What a handler does to the outside: an [alert], or a call of the
    prop [onUpdate]. *)
Inductive Event : Type :=
| Alert (msg : string)
| OnUpdate (task : Task.t).

(** The prop [validateTimeRange], as it is called: with the start time,
    the end time and the logs to compare against. *)
Definition Validator : Type := string -> string -> list TaskLog.t -> bool.

Definition msgEndBeforeStart : string := "结束时间必须晚于开始时间".
Definition msgOverlap : string := "该时间段与已有工作记录重叠，请选择其他时间段".

(** The logs that [isTimeRangeOverlap] hands to the validator. *)
Definition otherLogs (logs : option (list TaskLog.t))
           (start end_ date : string) : list TaskLog.t :=
  match logs with
  | Some l =>
      filter (fun log =>
                negb (TaskLog.date log =? date)%string
                || negb (TaskLog.startTime log =? start)%string
                || negb (TaskLog.endTime log =? end_)%string) l
  | None => []
  end.

Definition isTimeRangeOverlap (validateTimeRange : option Validator)
           (localTask : Task.t) (start end_ date : string) : bool :=
  match validateTimeRange with
  | None => false
  | Some validate =>
      validate start end_ (otherLogs (Task.logs localTask) start end_ date)
  end.

(** [updatedLogs.reduce((sum, log) => sum + log.duration, 0)] *)
Definition reduceDuration (updatedLogs : list TaskLog.t) : number :=
  fold_left (fun sum log => num_add sum (TaskLog.duration log))
            updatedLogs (Num 0).

Definition handleDeleteLog (logId : string) (st : State)
  : State * list Event :=
  let updatedLogs :=
    match Task.logs (localTask st) with
    | Some l => filter (fun log => negb (TaskLog.id log =? logId)%string) l
    | None => []
    end in
  let totalDuration := reduceDuration updatedLogs in
  let updatedTask := Task.with_logs updatedLogs totalDuration (localTask st) in
  (mkState updatedTask (newLog st) (showLogForm st), [OnUpdate updatedTask]).

Section WithRuntime.
Context `{R : JsRuntime}.

(** An element read out of an array of numbers; a missing one is
    undefined, which arithmetic turns into NaN. *)
Definition elem (l : list number) (i : nat) : number := nth i l NaN.

Definition calculateDuration (start end_ : string) : number :=
  let startParts := map ToNumber (split ":" start) in
  let endParts := map ToNumber (split ":" end_) in
  let startH := elem startParts 0 in
  let startM := elem startParts 1 in
  let endH := elem endParts 0 in
  let endM := elem endParts 1 in
  let startMinutes := num_add (num_mul startH (Num 60)) startM in
  let endMinutes := num_add (num_mul endH (Num 60)) endM in
  num_sub endMinutes startMinutes.

(** [now] is [Date.now().toString()], [today] is
    [format(new Date(), 'yyyy-MM-dd')]. *)
Definition handleAddLog (validateTimeRange : option Validator)
           (now today : string) (st : State) : State * list Event :=
  let nl := newLog st in
  if negb (truthy (Some (startTime nl))) || negb (truthy (Some (endTime nl)))
  then (st, [])
  else
    let duration := calculateDuration (startTime nl) (endTime nl) in
    if num_leb duration (Num 0) then (st, [Alert msgEndBeforeStart])
    else if isTimeRangeOverlap validateTimeRange (localTask st)
              (startTime nl) (endTime nl) (date nl)
    then (st, [Alert msgOverlap])
    else
      let log := TaskLog.mk now (date nl) (startTime nl) (endTime nl) duration in
      let updatedLogs := logs_or_empty (Task.logs (localTask st)) ++ [log] in
      let totalDuration := reduceDuration updatedLogs in
      let updatedTask := Task.with_logs updatedLogs totalDuration (localTask st) in
      (mkState updatedTask (mkNewLog today "09:00" "10:00" (Num 60)) false,
       [OnUpdate updatedTask]).

End WithRuntime.
End TaskCard.

(* ================================================================== *)
(** * Properties *)

(** ** Numbers and digits *)

Lemma num_geb_Num x y : num_geb (Num x) (Num y) = (y <=? x).
Proof. reflexivity. Qed.

Lemma num_leb_NaN_l b : num_leb NaN b = false.
Proof. reflexivity. Qed.

Lemma num_leb_NaN_r a : num_leb a NaN = false.
Proof. destruct a; reflexivity. Qed.

Lemma num_ltb_NaN_r a : num_ltb a NaN = false.
Proof. destruct a; reflexivity. Qed.

Lemma digit_range c n : digit c = Some n -> 0 <= n <= 9.
Proof.
  unfold digit.
  destruct (Z.leb_spec 48 (Z.of_N (N_of_ascii c)));
    destruct (Z.leb_spec (Z.of_N (N_of_ascii c)) 57); simpl;
    intros E; inversion E; lia.
Qed.

Lemma two_digits_range a b n : two_digits a b = Some n -> 0 <= n <= 99.
Proof.
  unfold two_digits.
  destruct (digit a) eqn:Ea; [|discriminate].
  destruct (digit b) eqn:Eb; [|discriminate].
  apply digit_range in Ea. apply digit_range in Eb.
  intros E. assert (n = 10 * z + z0) by congruence. lia.
Qed.

Lemma digit_not_colon c n : digit c = Some n -> Ascii.eqb c ":" = false.
Proof.
  intros E. destruct (Ascii.eqb_spec c ":") as [->|]; [|reflexivity].
  vm_compute in E. discriminate.
Qed.

(** ** The calendar *)

Lemma DayFromYear_succ y : DayFromYear (y + 1) = DayFromYear y + DaysInYear y.
Proof.
  assert (H4 : (y + 1 - 1969) / 4
               = (y - 1969) / 4 + (if y mod 4 =? 0 then 1 else 0)).
  { destruct (Z.eqb_spec (y mod 4) 0); Z.div_mod_to_equations; lia. }
  assert (H100 : (y + 1 - 1901) / 100
                 = (y - 1901) / 100 + (if y mod 100 =? 0 then 1 else 0)).
  { destruct (Z.eqb_spec (y mod 100) 0); Z.div_mod_to_equations; lia. }
  assert (H400 : (y + 1 - 1601) / 400
                 = (y - 1601) / 400 + (if y mod 400 =? 0 then 1 else 0)).
  { destruct (Z.eqb_spec (y mod 400) 0); Z.div_mod_to_equations; lia. }
  assert (Hd : y mod 400 = 0 -> y mod 100 = 0)
    by (intros; Z.div_mod_to_equations; lia).
  assert (Hd' : y mod 100 = 0 -> y mod 4 = 0)
    by (intros; Z.div_mod_to_equations; lia).
  unfold DayFromYear, DaysInYear, InLeapYear.
  rewrite H4, H100, H400.
  destruct (Z.eqb_spec (y mod 4) 0), (Z.eqb_spec (y mod 100) 0),
    (Z.eqb_spec (y mod 400) 0); cbn [andb orb negb]; lia.
Qed.

Lemma DayFromYear_mono y y' : y <= y' -> DayFromYear y <= DayFromYear y'.
Proof.
  unfold DayFromYear. intros. Z.div_mod_to_equations. lia.
Qed.

Lemma month_cases m :
  1 <= m <= 12 ->
  m = 1 \/ m = 2 \/ m = 3 \/ m = 4 \/ m = 5 \/ m = 6 \/ m = 7 \/ m = 8
  \/ m = 9 \/ m = 10 \/ m = 11 \/ m = 12.
Proof. lia. Qed.

Ltac split_month H :=
  apply month_cases in H;
  repeat (destruct H as [H | H]); subst.

Lemma month_within_year y m :
  1 <= m <= 12 -> DaysBeforeMonth y m + DaysInMonth y m <= DaysInYear y.
Proof.
  intros Hm. unfold DaysBeforeMonth, DaysInMonth, DaysInYear.
  split_month Hm; destruct (InLeapYear y); simpl; lia.
Qed.

Lemma month_before_month y m m' :
  1 <= m <= 12 -> 1 <= m' <= 12 -> m < m' ->
  DaysBeforeMonth y m + DaysInMonth y m <= DaysBeforeMonth y m'.
Proof.
  intros Hm Hm' Hlt. unfold DaysBeforeMonth, DaysInMonth.
  split_month Hm; split_month Hm'; try lia;
    destruct (InLeapYear y); simpl; lia.
Qed.

Lemma DaysBeforeMonth_nonneg y m : 0 <= DaysBeforeMonth y m.
Proof.
  unfold DaysBeforeMonth.
  repeat match goal with |- context [?a =? ?b] => destruct (a =? b) end;
    destruct (InLeapYear y); lia.
Qed.

Lemma valid_date_bounds y m d :
  valid_date (y, m, d) = true ->
  0 <= y <= 9999 /\ 1 <= m <= 12 /\ 1 <= d <= DaysInMonth y m.
Proof.
  unfold valid_date. rewrite !andb_true_iff, !Z.leb_le. lia.
Qed.

Example MakeDay_epoch : MakeDay 1970 1 1 = 0.
Proof. reflexivity. Qed.

Example MakeDay_2024_01_01 : MakeDay 2024 1 1 * msPerDay = 1704067200000.
Proof. reflexivity. Qed.

Example MakeDay_2000_03_01 : MakeDay 2000 3 1 * msPerDay = 951868800000.
Proof. reflexivity. Qed.

(** Earlier in the calendar means a smaller day number. *)
Lemma MakeDay_lt y1 m1 d1 y2 m2 d2 :
  valid_date (y1, m1, d1) = true -> valid_date (y2, m2, d2) = true ->
  y1 < y2 \/ (y1 = y2 /\ (m1 < m2 \/ (m1 = m2 /\ d1 < d2))) ->
  MakeDay y1 m1 d1 < MakeDay y2 m2 d2.
Proof.
  intros V1 V2 Hlt.
  apply valid_date_bounds in V1, V2.
  destruct V1 as (_ & Hm1 & Hd1), V2 as (_ & Hm2 & Hd2).
  unfold MakeDay.
  destruct Hlt as [Hy | [-> [Hm | [-> Hd]]]].
  - pose proof (month_within_year y1 m1 Hm1).
    pose proof (DayFromYear_succ y1).
    pose proof (DayFromYear_mono (y1 + 1) y2).
    pose proof (DaysBeforeMonth_nonneg y2 m2). lia.
  - pose proof (month_before_month y2 m1 m2 Hm1 Hm2 Hm). lia.
  - lia.
Qed.

Lemma MakeDay_le_iff a b :
  valid_date a = true -> valid_date b = true ->
  (let '(y1, m1, d1) := a in let '(y2, m2, d2) := b in
   MakeDay y1 m1 d1 <= MakeDay y2 m2 d2) <-> cal_le a b.
Proof.
  destruct a as [[y1 m1] d1], b as [[y2 m2] d2]. intros V1 V2.
  unfold cal_le. split.
  - intros Hle.
    destruct (Z.lt_trichotomy y1 y2) as [?|[->|Hy]]; [lia| |].
    + destruct (Z.lt_trichotomy m1 m2) as [?|[->|Hm]]; [lia| |].
      * destruct (Z_le_gt_dec d1 d2); [lia|].
        pose proof (MakeDay_lt y2 m2 d2 y2 m2 d1 V2 V1). lia.
      * pose proof (MakeDay_lt y2 m2 d2 y2 m1 d1 V2 V1). lia.
    + pose proof (MakeDay_lt y2 m2 d2 y1 m1 d1 V2 V1). lia.
  - intros H.
    destruct (Z.eq_dec y1 y2) as [->|]; [destruct (Z.eq_dec m1 m2) as [->|];
      [destruct (Z.eq_dec d1 d2) as [->|] |] |].
    + lia.
    + pose proof (MakeDay_lt y2 m2 d1 y2 m2 d2 V1 V2). lia.
    + pose proof (MakeDay_lt y2 m1 d1 y2 m2 d2 V1 V2). lia.
    + pose proof (MakeDay_lt y1 m1 d1 y2 m2 d2 V1 V2). lia.
Qed.

Lemma parseDateOnly_valid s c : parseDateOnly s = Some c -> valid_date c = true.
Proof.
  unfold parseDateOnly.
  repeat (destruct s as [|? s]; try discriminate).
  destruct (_ && _); [|discriminate].
  destruct (four_digits _ _ _ _); [|discriminate].
  destruct (two_digits _ _); [|discriminate].
  destruct (two_digits _ _); [|discriminate].
  destruct (valid_date _) eqn:V; [|discriminate].
  intros E; inversion E; subst; exact V.
Qed.

(** On well-formed dates the engine's time values compare as the
    calendar dates do. *)
Lemma Date_parse_le_iff `{R : JsRuntime} s1 s2 c1 c2 :
  parseDateOnly s1 = Some c1 -> parseDateOnly s2 = Some c2 ->
  num_leb (Date_parse s1) (Date_parse s2) = true <-> cal_le c1 c2.
Proof.
  intros P1 P2.
  pose proof (parseDateOnly_valid _ _ P1) as V1.
  pose proof (parseDateOnly_valid _ _ P2) as V2.
  destruct c1 as [[y1 m1] d1], c2 as [[y2 m2] d2].
  rewrite (Date_parse_date_only _ _ _ _ P1), (Date_parse_date_only _ _ _ _ P2).
  rewrite <- (MakeDay_le_iff (y1, m1, d1) (y2, m2, d2) V1 V2).
  simpl. rewrite Z.leb_le. unfold msPerDay. lia.
Qed.

Lemma parseDateOnly_truthy s c : parseDateOnly s = Some c -> truthy (Some s) = true.
Proof. destruct s; [discriminate | reflexivity]. Qed.

(** ** A concrete engine

    An engine in the UTC time zone that reads the ECMAScript formats
    [YYYY-MM-DD] and [YYYY-MM-DDTHH:mm] and decimal digit strings, and
    nothing else. *)

Definition es_Date_parse (s : string) : number :=
  match parseDateOnly s with
  | Some (y, m, d) => Num (MakeDay y m d * msPerDay)
  | None =>
      match parseDateOnly (substring 0 10 s), get 10 s,
            parseHHmm (substring 11 5 s) with
      | Some (y, m, d), Some sep, Some (h, mi) =>
          if Ascii.eqb sep "T" && Nat.eqb (String.length s) 16
          then Num (MakeDay y m d * msPerDay + (h * 60 + mi) * msPerMinute - 0)
          else NaN
      | _, _, _ => NaN
      end
  end.

Definition es_ToNumber (s : string) : number :=
  match parseDigits s with
  | Some n => Num n
  | None => if (s =? EmptyString)%string then Num 0 else NaN
  end.

Lemma es_Date_parse_date_only s y m d :
  parseDateOnly s = Some (y, m, d) ->
  es_Date_parse s = Num (MakeDay y m d * msPerDay).
Proof. intros E. unfold es_Date_parse. rewrite E. reflexivity. Qed.

Lemma es_Date_parse_local_time s h mi :
  parseHHmm s = Some (h, mi) ->
  es_Date_parse ("1970-01-01T" ++ s)%string
  = Num ((h * 60 + mi) * msPerMinute - 0).
Proof.
  intros E.
  destruct s as [|a [|b [|c [|d [|e [|]]]]]]; try discriminate.
  unfold es_Date_parse.
  change (parseDateOnly ("1970-01-01T" ++ String a (String b (String c
            (String d (String e EmptyString)))))%string) with (@None CalDate).
  change (substring 0 10 ("1970-01-01T" ++ String a (String b (String c
            (String d (String e EmptyString)))))%string) with "1970-01-01".
  change (substring 11 5 ("1970-01-01T" ++ String a (String b (String c
            (String d (String e EmptyString)))))%string)
    with (String a (String b (String c (String d (String e EmptyString))))).
  rewrite E.
  change (parseDateOnly "1970-01-01") with (Some (1970, 1, 1)).
  reflexivity.
Qed.

Lemma es_ToNumber_digits s n :
  parseDigits s = Some n -> n < 2 ^ 53 -> es_ToNumber s = Num n.
Proof. intros E _. unfold es_ToNumber. rewrite E. reflexivity. Qed.

Definition es_runtime : JsRuntime :=
  {| Date_parse := es_Date_parse;
     ToNumber := es_ToNumber;
     LocalTZA := 0;
     Date_parse_date_only := es_Date_parse_date_only;
     Date_parse_local_time := es_Date_parse_local_time;
     ToNumber_digits := es_ToNumber_digits |}.

(* ================================================================== *)
(** ** The visibility resolver *)

Lemma shouldTaskAppearOnDate_adhoc `{R : JsRuntime} task d :
  Task.isAdHoc task = true ->
  Page.shouldTaskAppearOnDate task d = (Task.date task =? d)%string.
Proof. intros H. unfold Page.shouldTaskAppearOnDate. rewrite H. reflexivity. Qed.

Lemma shouldTaskAppearOnDate_range `{R : JsRuntime} task d :
  Task.isAdHoc task = false ->
  truthy (Task.startDate task) && truthy (Task.endDate task) = true ->
  Page.shouldTaskAppearOnDate task d
  = num_leb (Date_getTime (Task.startDate task)) (Date_parse d)
    && num_leb (Date_parse d) (Date_getTime (Task.endDate task)).
Proof.
  intros H1 H2. unfold Page.shouldTaskAppearOnDate. rewrite H1, H2. reflexivity.
Qed.

Lemma shouldTaskAppearOnDate_fallback `{R : JsRuntime} task d :
  Task.isAdHoc task = false ->
  truthy (Task.startDate task) && truthy (Task.endDate task) = false ->
  Page.shouldTaskAppearOnDate task d = (Task.date task =? d)%string.
Proof.
  intros H1 H2. unfold Page.shouldTaskAppearOnDate. rewrite H1, H2. reflexivity.
Qed.

(** C3.  On a well-formed date string [d]: an ad-hoc task appears iff
    [d] is its [date]; a task that is not ad-hoc and has [startDate] and
    [endDate] (well-formed dates) appears iff
    startDate <= d <= endDate in the calendar; a task that is not ad-hoc and
    lacks one of the two appears iff [d] is its [date]. *)
Theorem C3_shouldTaskAppearOnDate_cases `{R : JsRuntime}
        (task : Task.t) (d : string) (c : CalDate) :
  parseDateOnly d = Some c ->
  (Task.isAdHoc task = true ->
     (Page.shouldTaskAppearOnDate task d = true <-> Task.date task = d))
  /\ (Task.isAdHoc task = false ->
      forall sd ed cs ce,
        Task.startDate task = Some sd -> Task.endDate task = Some ed ->
        parseDateOnly sd = Some cs -> parseDateOnly ed = Some ce ->
        (Page.shouldTaskAppearOnDate task d = true
         <-> cal_le cs c /\ cal_le c ce))
  /\ (Task.isAdHoc task = false ->
      truthy (Task.startDate task) && truthy (Task.endDate task) = false ->
      (Page.shouldTaskAppearOnDate task d = true <-> Task.date task = d)).
Proof.
  intros Hd. split; [|split].
  - intros Ha. rewrite (shouldTaskAppearOnDate_adhoc _ _ Ha). apply String.eqb_eq.
  - intros Ha sd ed cs ce Hsd Hed Hcs Hce.
    rewrite shouldTaskAppearOnDate_range.
    + rewrite Hsd, Hed, andb_true_iff. simpl.
      rewrite (Date_parse_le_iff sd d cs c Hcs Hd).
      rewrite (Date_parse_le_iff d ed c ce Hd Hce). reflexivity.
    + exact Ha.
    + rewrite Hsd, Hed.
      rewrite (parseDateOnly_truthy _ _ Hcs), (parseDateOnly_truthy _ _ Hce).
      reflexivity.
  - intros Ha Hno. rewrite (shouldTaskAppearOnDate_fallback _ _ Ha Hno).
    apply String.eqb_eq.
Qed.

(** Task A of the specification's scenario: not ad-hoc, 2024-01-01 to
    2024-01-05. *)
Definition taskA : Task.t :=
  Task.mk "1704067200000" "A" "range task" "2024-01-01" false 0 false None None
          (Some "2024-01-01") (Some "2024-01-05") (Some []) (Some (Num 0)).

Lemma C3_witness :
  parseDateOnly "2024-01-03" = Some (2024, 1, 3)
  /\ Page.shouldTaskAppearOnDate (R := es_runtime) taskA "2024-01-03" = true.
Proof.
  split; [reflexivity|].
  destruct (C3_shouldTaskAppearOnDate_cases (R := es_runtime) taskA "2024-01-03"
              (2024, 1, 3) eq_refl) as (_ & Hrange & _).
  apply (Hrange eq_refl "2024-01-01" "2024-01-05" (2024, 1, 1) (2024, 1, 5)
           eq_refl eq_refl eq_refl eq_refl).
  unfold cal_le; lia.
Defined.

Example taskA_not_on_2024_01_06 :
  Page.shouldTaskAppearOnDate (R := es_runtime) taskA "2024-01-06" = false.
Proof. reflexivity. Qed.

(** An ad-hoc task whose [date] is not a date. *)
Definition taskSomeday : Task.t :=
  Task.mk "1704067200001" "B" "ad-hoc task" "someday" true 0 false None None
          None None (Some []) (Some (Num 0)).

(** C8 as stated fails: on the ad-hoc branch an unparsable date string
    that equals [task.date] makes the task appear. *)
Lemma C8_counterexample :
  Date_parse (JsRuntime := es_runtime) "someday" = NaN
  /\ Page.shouldTaskAppearOnDate (R := es_runtime) taskSomeday "someday" = true.
Proof. split; reflexivity. Qed.

(** C8, amended.  On an unparsable date string [d] the resolver returns a
    boolean on every branch (it is a total function): [false] on the
    startDate/endDate range branch; on the ad-hoc branch and on the
    fallback branch, whether [task.date] is that same string. *)
Theorem C8_shouldTaskAppearOnDate_unparsable `{R : JsRuntime}
        (task : Task.t) (d : string) :
  Date_parse d = NaN ->
  (Task.isAdHoc task = false ->
   truthy (Task.startDate task) && truthy (Task.endDate task) = true ->
   Page.shouldTaskAppearOnDate task d = false)
  /\ (Task.isAdHoc task = true
      \/ truthy (Task.startDate task) && truthy (Task.endDate task) = false ->
      (Page.shouldTaskAppearOnDate task d = true <-> Task.date task = d))
  /\ (Task.date task <> d -> Page.shouldTaskAppearOnDate task d = false).
Proof.
  intros Hnan.
  assert (Hrange : Task.isAdHoc task = false ->
                   truthy (Task.startDate task) && truthy (Task.endDate task) = true ->
                   Page.shouldTaskAppearOnDate task d = false).
  { intros H1 H2. rewrite shouldTaskAppearOnDate_range by assumption.
    rewrite Hnan, num_leb_NaN_r. reflexivity. }
  split; [exact Hrange|]. split.
  - intros [H | H].
    + rewrite (shouldTaskAppearOnDate_adhoc _ _ H). apply String.eqb_eq.
    + destruct (Task.isAdHoc task) eqn:Ha.
      * rewrite (shouldTaskAppearOnDate_adhoc _ _ Ha). apply String.eqb_eq.
      * rewrite (shouldTaskAppearOnDate_fallback _ _ Ha H). apply String.eqb_eq.
  - intros Hne. apply String.eqb_neq in Hne.
    destruct (Task.isAdHoc task) eqn:Ha.
    + rewrite (shouldTaskAppearOnDate_adhoc _ _ Ha). exact Hne.
    + destruct (truthy (Task.startDate task) && truthy (Task.endDate task)) eqn:Ht.
      * apply Hrange; reflexivity.
      * rewrite (shouldTaskAppearOnDate_fallback _ _ Ha Ht). exact Hne.
Qed.

Lemma C8_witness :
  Date_parse (JsRuntime := es_runtime) "2024-13-45" = NaN
  /\ Page.shouldTaskAppearOnDate (R := es_runtime) taskA "2024-13-45" = false.
Proof.
  split; [reflexivity|].
  apply (proj1 (C8_shouldTaskAppearOnDate_unparsable (R := es_runtime)
                  taskA "2024-13-45" eq_refl)); reflexivity.
Defined.

(* ================================================================== *)
(** ** Arrays: sorting and sets of ids *)

Section ArrayFacts.
Context {A : Type}.

Lemma sort_insert_perm (cmp : A -> A -> Z) x l :
  Permutation (sort_insert cmp x l) (x :: l).
Proof.
  induction l as [|y l IH]; simpl; [reflexivity|].
  destruct (cmp x y <=? 0); [reflexivity|].
  rewrite IH. apply perm_swap.
Qed.

Lemma sort_perm (cmp : A -> A -> Z) l : Permutation (sort cmp l) l.
Proof.
  induction l as [|x l IH]; simpl; [constructor|].
  rewrite sort_insert_perm. constructor. exact IH.
Qed.

Lemma NoDup_map_filter {B : Type} (f : A -> B) (p : A -> bool) l :
  NoDup (map f l) -> NoDup (map f (filter p l)).
Proof.
  induction l as [|x l IH]; simpl; intros H; [constructor|].
  inversion H as [|? ? Hx Hl]; subst.
  destruct (p x); simpl; [constructor|]; auto.
  intros Hin. apply Hx. apply in_map_iff in Hin as (y & <- & Hy).
  apply in_map. apply filter_In in Hy. tauto.
Qed.

Lemma NoDup_map_injective_on {B : Type} (f : A -> B) l a b :
  NoDup (map f l) -> In a l -> In b l -> f a = f b -> a = b.
Proof.
  induction l as [|x l IH]; simpl; intros H Ha Hb E; [contradiction|].
  inversion H as [|? ? Hx Hl]; subst.
  destruct Ha as [->|Ha], Hb as [->|Hb]; auto.
  - exfalso. apply Hx. rewrite E. apply in_map. exact Hb.
  - exfalso. apply Hx. rewrite <- E. apply in_map. exact Ha.
Qed.
End ArrayFacts.

Lemma has_In s k : has s k = true <-> In k s.
Proof.
  unfold has. rewrite existsb_exists. split.
  - intros (k' & Hin & E). apply String.eqb_eq in E. subst. exact Hin.
  - intros Hin. exists k. split; [exact Hin | apply String.eqb_refl].
Qed.

(* ================================================================== *)
(** ** The storage lookups *)

Section DbFacts.
Context `{R : JsRuntime}.

(** The test of the second cursor of [getTasksByDate], without the
    check against the ids already seen. *)
Definition inDateRange (date : string) (task : Task.t) : bool :=
  truthy (Task.startDate task) && truthy (Task.endDate task)
  && (num_geb (Date_getTime (Some date)) (Date_getTime (Task.startDate task))
      && num_leb (Date_getTime (Some date)) (Date_getTime (Task.endDate task))).

Lemma fold_dateStep l acc :
  fold_left Db.dateStep l acc
  = Db.mkAcc (Db.tasks acc ++ l) (rev (map Task.id l) ++ Db.seenIds acc).
Proof.
  revert acc. induction l as [|x l IH]; intros acc; simpl.
  - rewrite app_nil_r. destruct acc; reflexivity.
  - rewrite IH. simpl. rewrite <- !app_assoc. reflexivity.
Qed.

Lemma fold_rangeStep date l acc :
  fold_left (Db.rangeStep date) l acc
  = Db.mkAcc
      (Db.tasks acc
       ++ filter (fun t => inDateRange date t
                           && negb (has (Db.seenIds acc) (Task.id t))) l)
      (Db.seenIds acc).
Proof.
  revert acc. induction l as [|x l IH]; intros acc; simpl.
  - rewrite app_nil_r. destruct acc; reflexivity.
  - rewrite IH. unfold Db.rangeStep, inDateRange.
    destruct (truthy (Task.startDate x) && truthy (Task.endDate x)); simpl;
      [|reflexivity].
    rewrite <- andb_assoc.
    destruct (num_geb _ _ && (num_leb _ _ && negb _)); simpl;
      [rewrite <- app_assoc|]; reflexivity.
Qed.

(** The two cursor loops, as filters over the store. *)
Lemma getTasksByDate_unfold store date :
  Db.getTasksByDate store date
  = sort (fun a b => Task.order a - Task.order b)
      (filter (fun t => (Task.date t =? date)%string) store
       ++ filter (fun t =>
                    inDateRange date t
                    && negb (has (rev (map Task.id
                               (filter (fun t => (Task.date t =? date)%string) store)))
                               (Task.id t)))
           (filter (fun t => Db.in_bound EmptyString Db.uFFFF (Task.id t)) store)).
Proof.
  unfold Db.getTasksByDate. rewrite fold_dateStep, fold_rangeStep. simpl.
  rewrite app_nil_r. reflexivity.
Qed.

(** Which records [getTasksByDate] returns. *)
Lemma getTasksByDate_In store date t :
  Db.store_ok store ->
  In t (Db.getTasksByDate store date)
  <-> In t store
      /\ (Task.date t = date
          \/ (Db.in_bound EmptyString Db.uFFFF (Task.id t) = true
              /\ inDateRange date t = true)).
Proof.
  intros Hok. rewrite getTasksByDate_unfold.
  split.
  - intros Hin. apply (Permutation_in _ (sort_perm _ _)) in Hin.
    apply in_app_or in Hin as [Hin | Hin].
    + apply filter_In in Hin as [Hs E]. apply String.eqb_eq in E. tauto.
    + apply filter_In in Hin as [Hin E]. apply filter_In in Hin as [Hs B].
      apply andb_true_iff in E as [E _]. tauto.
  - intros [Hs Hc]. apply (Permutation_in _ (Permutation_sym (sort_perm _ _))).
    apply in_or_app.
    destruct (String.eqb_spec (Task.date t) date) as [E | NE].
    + left. apply filter_In. split; [exact Hs|]. subst. apply String.eqb_refl.
    + right. destruct Hc as [E | [B Hr]]; [contradiction|].
      apply filter_In. split; [apply filter_In; tauto|].
      rewrite Hr. simpl. apply negb_true_iff.
      destruct (has _ _) eqn:Hh; [|reflexivity]. exfalso.
      apply has_In in Hh. apply in_rev in Hh.
      apply in_map_iff in Hh as (t' & Eid & Hin').
      apply filter_In in Hin' as [Hs' Ed].
      assert (t' = t) by (eapply NoDup_map_injective_on; eauto).
      subst t'. apply String.eqb_eq in Ed. contradiction.
Qed.

End DbFacts.

(** C10.  In a store whose records have distinct ids, [getTasksByDate]
    returns each task id at most once: a record that the exact-date
    lookup returned is skipped by the range scan. *)
Theorem C10_getTasksByDate_NoDup `{R : JsRuntime} (store : Db.Store) (d : string) :
  Db.store_ok store ->
  NoDup (map Task.id (Db.getTasksByDate store d)).
Proof.
  intros Hok. rewrite getTasksByDate_unfold.
  eapply Permutation_NoDup.
  { apply Permutation_map. symmetry. apply sort_perm. }
  rewrite map_app. apply NoDup_app.
  - apply NoDup_map_filter. exact Hok.
  - do 2 apply NoDup_map_filter. exact Hok.
  - intros i Hi Hi'.
    apply in_map_iff in Hi' as (t & <- & Ht).
    apply filter_In in Ht as [_ E].
    apply andb_true_iff in E as [_ E]. apply negb_true_iff in E.
    assert (has (rev (map Task.id
              (filter (fun t => (Task.date t =? d)%string) store))) (Task.id t) = true)
      as Hh by (apply has_In; apply -> in_rev; exact Hi).
    congruence.
Qed.

(** A task that matches both lookups: its [date] is the queried date and
    its range contains it. *)
Lemma C10_witness :
  Db.store_ok [taskA]
  /\ map Task.id (Db.getTasksByDate (R := es_runtime) [taskA] "2024-01-01")
     = ["1704067200000"]
  /\ NoDup (map Task.id (Db.getTasksByDate (R := es_runtime) [taskA] "2024-01-01")).
Proof.
  assert (Hok : Db.store_ok [taskA]).
  { unfold Db.store_ok. simpl. constructor; [intros []|constructor]. }
  split; [exact Hok|]. split; [reflexivity|].
  apply (C10_getTasksByDate_NoDup (R := es_runtime) [taskA] "2024-01-01" Hok).
Defined.

(** An ad-hoc task whose range, as the task form computes it from the
    deadline and the estimated hours, spans five days. *)
Definition taskAdHoc : Task.t :=
  Task.mk "1704067200002" "C" "ad-hoc task" "2024-01-01" true 0 false None
          (Some "2024-01-05") (Some "2024-01-01") (Some "2024-01-05")
          (Some []) (Some (Num 0)).

(** C1 fails on the code: the range scan of [getTasksByDate] does not
    look at [isAdHoc], so an ad-hoc task is returned on every day of its
    range, where the resolver shows it on its [date] only. *)
Theorem C1_getTasksByDate_returns_adhoc_in_range `{R : JsRuntime} :
  Db.store_ok [taskAdHoc]
  /\ In taskAdHoc (Db.getTasksByDate [taskAdHoc] "2024-01-03")
  /\ Page.shouldTaskAppearOnDate taskAdHoc "2024-01-03" = false.
Proof.
  assert (Hok : Db.store_ok [taskAdHoc]).
  { unfold Db.store_ok. simpl. constructor; [intros []|constructor]. }
  split; [exact Hok|]. split; [|reflexivity].
  apply getTasksByDate_In; [exact Hok|].
  split; [left; reflexivity|]. right. split; [reflexivity|].
  unfold inDateRange. simpl.
  rewrite (Date_parse_date_only "2024-01-03" 2024 1 3 eq_refl).
  rewrite (Date_parse_date_only "2024-01-01" 2024 1 1 eq_refl).
  rewrite (Date_parse_date_only "2024-01-05" 2024 1 5 eq_refl).
  reflexivity.
Qed.

(* ================================================================== *)
(** ** The overlap check of [page.tsx] *)

Section OverlapFacts.
Context `{R : JsRuntime}.

Lemma Date_parse_minutes s n :
  minutesOf s = Some n ->
  Date_parse ("1970-01-01T" ++ s)%string = Num (n * msPerMinute - LocalTZA).
Proof.
  unfold minutesOf. destruct (parseHHmm s) as [[h mi]|] eqn:E; [|discriminate].
  intros [= <-]. apply Date_parse_local_time. exact E.
Qed.

(** The test applied to one existing log, on minutes since midnight. *)
Definition overlapTest (ns ne ls le : Z) : bool :=
  ((ls <=? ns) && (ns <? le)) || ((ls <? ne) && (ne <=? le))
  || ((ns <=? ls) && (le <=? ne)).

Lemma overlapTest_half_open ns ne ls le :
  ns < ne -> ls < le -> (overlapTest ns ne ls le = true <-> ns < le /\ ls < ne).
Proof.
  intros. unfold overlapTest.
  rewrite !orb_true_iff, !andb_true_iff, !Z.leb_le, !Z.ltb_lt. lia.
Qed.

Lemma isTimeRangeOverlap_minutes newStart newEnd ns ne logs :
  minutesOf newStart = Some ns -> minutesOf newEnd = Some ne ->
  Page.isTimeRangeOverlap newStart newEnd logs = true
  <-> exists log, In log logs
        /\ match Date_parse ("1970-01-01T" ++ TaskLog.startTime log)%string,
                 Date_parse ("1970-01-01T" ++ TaskLog.endTime log)%string with
           | Num s, Num e =>
               overlapTest (ns * msPerMinute - LocalTZA) (ne * msPerMinute - LocalTZA) s e
           | _, _ => false
           end = true.
Proof.
  intros Hs He. unfold Page.isTimeRangeOverlap.
  rewrite (Date_parse_minutes _ _ Hs), (Date_parse_minutes _ _ He).
  rewrite existsb_exists.
  split; intros (log & Hin & H); exists log; (split; [exact Hin|]);
    destruct (Date_parse ("1970-01-01T" ++ TaskLog.startTime log)%string);
    destruct (Date_parse ("1970-01-01T" ++ TaskLog.endTime log)%string);
    simpl in *; try discriminate; try exact H;
    rewrite ?andb_false_r, ?orb_false_r in *; try discriminate; try exact H.
Qed.

End OverlapFacts.

(** A log is well formed when its times are same-day [HH:mm] strings with
    the start before the end. *)
Definition log_ok (log : TaskLog.t) : Prop :=
  exists ls le,
    minutesOf (TaskLog.startTime log) = Some ls
    /\ minutesOf (TaskLog.endTime log) = Some le /\ ls < le.

(** C2.  For a candidate interval and existing logs that are all well
    formed, [isTimeRangeOverlap] answers true iff some existing log
    intersects the candidate as half-open intervals; logs that end at or
    before the candidate's start, or start at or after its end, never
    count. *)
Theorem C2_isTimeRangeOverlap_half_open `{R : JsRuntime}
        (newStart newEnd : string) (ns ne : Z) (logs : list TaskLog.t) :
  minutesOf newStart = Some ns -> minutesOf newEnd = Some ne -> ns < ne ->
  Forall log_ok logs ->
  (Page.isTimeRangeOverlap newStart newEnd logs = true
   <-> exists log ls le,
         In log logs
         /\ minutesOf (TaskLog.startTime log) = Some ls
         /\ minutesOf (TaskLog.endTime log) = Some le
         /\ ns < le /\ ls < ne)
  /\ ((forall log ls le,
         In log logs ->
         minutesOf (TaskLog.startTime log) = Some ls ->
         minutesOf (TaskLog.endTime log) = Some le ->
         le <= ns \/ ne <= ls) ->
      Page.isTimeRangeOverlap newStart newEnd logs = false).
Proof.
  intros Hs He Hlt Hok.
  assert (Hiff : Page.isTimeRangeOverlap newStart newEnd logs = true
                 <-> exists log ls le,
                       In log logs
                       /\ minutesOf (TaskLog.startTime log) = Some ls
                       /\ minutesOf (TaskLog.endTime log) = Some le
                       /\ ns < le /\ ls < ne).
  { rewrite (isTimeRangeOverlap_minutes _ _ _ _ _ Hs He).
    rewrite Forall_forall in Hok.
    split.
    - intros (log & Hin & H).
      destruct (Hok log Hin) as (ls & le & Hls & Hle & Hl).
      rewrite (Date_parse_minutes _ _ Hls), (Date_parse_minutes _ _ Hle) in H.
      apply overlapTest_half_open in H; unfold msPerMinute in *; try lia.
      exists log, ls, le. repeat split; auto; lia.
    - intros (log & ls & le & Hin & Hls & Hle & H1 & H2).
      exists log. split; [exact Hin|].
      rewrite (Date_parse_minutes _ _ Hls), (Date_parse_minutes _ _ Hle).
      destruct (Hok log Hin) as (ls' & le' & Hls' & Hle' & Hl).
      assert (ls' = ls) by congruence. assert (le' = le) by congruence. subst.
      apply overlapTest_half_open; unfold msPerMinute; lia. }
  split; [exact Hiff|].
  intros Hdisj.
  destruct (Page.isTimeRangeOverlap newStart newEnd logs) eqn:E; [|reflexivity].
  exfalso. destruct Hiff as [Hiff _].
  destruct (Hiff eq_refl) as (log & ls & le & Hin & Hls & Hle & H1 & H2).
  destruct (Hdisj log ls le Hin Hls Hle); lia.
Qed.

Definition log_0930_1030 : TaskLog.t :=
  TaskLog.mk "1704067200100" "2024-01-01" "09:30" "10:30" (Num 60).

Definition log_1000_1100 : TaskLog.t :=
  TaskLog.mk "1704067200101" "2024-01-01" "10:00" "11:00" (Num 60).

Lemma log_0930_1030_ok : log_ok log_0930_1030.
Proof. exists 570, 630. repeat split; reflexivity. Qed.

(** The specification's scenario: 09:00-10:00 against 09:30-10:30. *)
Lemma C2_witness :
  minutesOf "09:00" = Some 540 /\ minutesOf "10:00" = Some 600 /\ 540 < 600
  /\ Forall log_ok [log_0930_1030]
  /\ Page.isTimeRangeOverlap (R := es_runtime) "09:00" "10:00" [log_0930_1030] = true.
Proof.
  assert (Hok : Forall log_ok [log_0930_1030])
    by (constructor; [exact log_0930_1030_ok | constructor]).
  split; [reflexivity|]. split; [reflexivity|]. split; [lia|].
  split; [exact Hok|].
  apply (proj1 (C2_isTimeRangeOverlap_half_open (R := es_runtime)
                  "09:00" "10:00" 540 600 [log_0930_1030]
                  eq_refl eq_refl eq_refl Hok)).
  exists log_0930_1030, 570, 630.
  split; [left; reflexivity|].
  split; [reflexivity|]. split; [reflexivity|]. lia.
Defined.

(** Touching intervals: 09:00-10:00 against 10:00-11:00. *)
Example touching_does_not_overlap :
  Page.isTimeRangeOverlap (R := es_runtime) "09:00" "10:00" [log_1000_1100] = false.
Proof. reflexivity. Qed.

(* ================================================================== *)
(** ** The work-log handlers of [TaskCard.tsx] *)

Lemma two_digits_inv a b n :
  two_digits a b = Some n ->
  exists x y, digit a = Some x /\ digit b = Some y /\ n = 10 * x + y.
Proof.
  unfold two_digits.
  destruct (digit a) as [x|]; [|discriminate].
  destruct (digit b) as [y|]; [|discriminate].
  intros E. exists x, y.
  split; [reflexivity|]. split; [reflexivity|]. congruence.
Qed.

Lemma parseDigits_two a b n :
  two_digits a b = Some n ->
  parseDigits (String a (String b EmptyString)) = Some n.
Proof.
  intros E. apply two_digits_inv in E as (x & y & Ha & Hb & ->).
  unfold parseDigits, digits_value. rewrite Ha, Hb. reflexivity.
Qed.

Lemma split_HHmm a b d e x y :
  two_digits a b = Some x -> two_digits d e = Some y ->
  split ":" (String a (String b (String ":" (String d (String e EmptyString)))))
  = [String a (String b EmptyString); String d (String e EmptyString)].
Proof.
  intros E1 E2.
  apply two_digits_inv in E1 as (? & ? & Ha & Hb & _).
  apply two_digits_inv in E2 as (? & ? & Hd & He & _).
  apply digit_not_colon in Ha, Hb, Hd, He.
  cbn [split]. rewrite Ha, Hb, Hd, He. reflexivity.
Qed.

Section TaskCardFacts.
Context `{R : JsRuntime}.

Lemma ToNumber_split_HHmm s h mi :
  parseHHmm s = Some (h, mi) ->
  map ToNumber (split ":" s) = [Num h; Num mi].
Proof.
  destruct s as [|a [|b [|c [|d [|e [|]]]]]]; try discriminate.
  unfold parseHHmm.
  destruct (Ascii.eqb_spec c ":") as [->|]; [|discriminate].
  destruct (two_digits a b) as [x|] eqn:E1; [|discriminate].
  destruct (two_digits d e) as [y|] eqn:E2; [|discriminate].
  destruct ((x <=? 23) && (y <=? 59)); [|discriminate].
  intros E. assert (x = h) by congruence. assert (y = mi) by congruence. subst.
  rewrite (split_HHmm a b d e h mi E1 E2). simpl.
  pose proof (two_digits_range _ _ _ E1). pose proof (two_digits_range _ _ _ E2).
  rewrite (ToNumber_digits _ _ (parseDigits_two a b h E1)) by lia.
  rewrite (ToNumber_digits _ _ (parseDigits_two d e mi E2)) by lia.
  reflexivity.
Qed.

(** On well-formed times [calculateDuration] is the difference in minutes. *)
Lemma calculateDuration_minutes start end_ a b :
  minutesOf start = Some a -> minutesOf end_ = Some b ->
  TaskCard.calculateDuration start end_ = Num (b - a).
Proof.
  unfold minutesOf.
  destruct (parseHHmm start) as [[h1 m1]|] eqn:E1; [|discriminate].
  destruct (parseHHmm end_) as [[h2 m2]|] eqn:E2; [|discriminate].
  intros Ha Hb. assert (a = h1 * 60 + m1) by congruence.
  assert (b = h2 * 60 + m2) by congruence. subst.
  unfold TaskCard.calculateDuration.
  rewrite (ToNumber_split_HHmm _ _ _ E1), (ToNumber_split_HHmm _ _ _ E2).
  reflexivity.
Qed.

Lemma minutesOf_truthy s n : minutesOf s = Some n -> truthy (Some s) = true.
Proof. destruct s; [discriminate | reflexivity]. Qed.

End TaskCardFacts.

(** The sum of the [duration] fields of a list of logs. *)
Definition sumDurations (logs : list TaskLog.t) : number :=
  fold_right (fun log acc => num_add (TaskLog.duration log) acc) (Num 0) logs.

Lemma num_add_assoc a b c : num_add a (num_add b c) = num_add (num_add a b) c.
Proof. destruct a, b, c; simpl; try reflexivity. f_equal. lia. Qed.

Lemma num_add_0_r a : num_add a (Num 0) = a.
Proof. destruct a; simpl; [f_equal; lia | reflexivity]. Qed.

Lemma reduce_from acc logs :
  fold_left (fun sum log => num_add sum (TaskLog.duration log)) logs acc
  = num_add acc (sumDurations logs).
Proof.
  revert acc. induction logs as [|l logs IH]; intros acc; simpl.
  - symmetry. apply num_add_0_r.
  - rewrite IH. symmetry. apply num_add_assoc.
Qed.

Lemma reduceDuration_sum logs : TaskCard.reduceDuration logs = sumDurations logs.
Proof.
  unfold TaskCard.reduceDuration. rewrite reduce_from.
  destruct (sumDurations logs); reflexivity.
Qed.

(** The invariant of the data model on one task. *)
Definition totalDuration_ok (task : Task.t) : Prop :=
  Task.totalDuration task = Some (sumDurations (logs_or_empty (Task.logs task))).

(** C5.  A proposed log with well-formed times whose end is not after
    its start is rejected with the message of the duration check, whatever
    the validator and the existing logs are; the component state, and so
    the task's logs and totalDuration, stay as they were.  That message is
    not the one of the overlap check. *)
Theorem C5_handleAddLog_rejects_nonpositive `{R : JsRuntime}
        (validate : option TaskCard.Validator) (now today : string)
        (st : TaskCard.State) (a b : Z) :
  minutesOf (TaskCard.startTime (TaskCard.newLog st)) = Some a ->
  minutesOf (TaskCard.endTime (TaskCard.newLog st)) = Some b ->
  b <= a ->
  TaskCard.handleAddLog validate now today st
  = (st, [TaskCard.Alert TaskCard.msgEndBeforeStart])
  /\ TaskCard.msgEndBeforeStart <> TaskCard.msgOverlap.
Proof.
  intros Ha Hb Hle. split; [|discriminate].
  unfold TaskCard.handleAddLog.
  rewrite (minutesOf_truthy _ _ Ha), (minutesOf_truthy _ _ Hb). simpl.
  rewrite (calculateDuration_minutes _ _ _ _ Ha Hb). simpl.
  destruct (Z.leb_spec (b - a) 0); [reflexivity | lia].
Qed.

(** A card whose task holds the given logs and whose form proposes the
    given times on 2024-01-01. *)
Definition cardWith (logs : list TaskLog.t) (start end_ : string) : TaskCard.State :=
  TaskCard.mkState
    (Task.mk "1704067200000" "A" "range task" "2024-01-01" false 0 false None
       None (Some "2024-01-01") (Some "2024-01-05") (Some logs)
       (Some (sumDurations logs)))
    (TaskCard.mkNewLog "2024-01-01" start end_ (Num 60))
    true.

(** The specification's scenario: endTime = startTime, on a task whose
    existing log overlaps the proposed time. *)
Lemma C5_witness :
  minutesOf "10:00" = Some 600 /\ 600 <= 600
  /\ TaskCard.handleAddLog (R := es_runtime)
       (Some (fun s e logs => Page.isTimeRangeOverlap (R := es_runtime) s e logs))
       "1704067200200" "2024-01-02" (cardWith [log_0930_1030] "10:00" "10:00")
     = (cardWith [log_0930_1030] "10:00" "10:00",
        [TaskCard.Alert TaskCard.msgEndBeforeStart]).
Proof.
  split; [reflexivity|]. split; [lia|].
  apply (proj1 (C5_handleAddLog_rejects_nonpositive (R := es_runtime)
                  (Some (fun s e logs => Page.isTimeRangeOverlap (R := es_runtime) s e logs))
                  "1704067200200" "2024-01-02"
                  (cardWith [log_0930_1030] "10:00" "10:00") 600 600
                  eq_refl eq_refl (Z.le_refl 600))).
Defined.

(** C7.  When [handleAddLog] adds a log (it calls [onUpdate]), and
    whenever [handleDeleteLog] runs, the task that is stored in the
    component and handed to [onUpdate] has a totalDuration equal to the
    sum of the durations of the logs it now holds: the old logs with the
    new one appended, or the old logs without those of the deleted id. *)
Theorem C7_totalDuration_is_sum `{R : JsRuntime} :
  (forall validate now today st task,
      In (TaskCard.OnUpdate task)
         (snd (TaskCard.handleAddLog validate now today st)) ->
      task = TaskCard.localTask (fst (TaskCard.handleAddLog validate now today st))
      /\ totalDuration_ok task
      /\ exists log,
           Task.logs task
           = Some (logs_or_empty (Task.logs (TaskCard.localTask st)) ++ [log])
           /\ TaskLog.id log = now)
  /\ (forall logId st,
         let task := TaskCard.localTask (fst (TaskCard.handleDeleteLog logId st)) in
         snd (TaskCard.handleDeleteLog logId st) = [TaskCard.OnUpdate task]
         /\ totalDuration_ok task
         /\ Task.logs task
            = Some (filter (fun log => negb (TaskLog.id log =? logId)%string)
                      (logs_or_empty (Task.logs (TaskCard.localTask st))))).
Proof.
  split.
  - intros validate now today st task.
    unfold TaskCard.handleAddLog.
    destruct (negb _ || negb _); [intros []|].
    destruct (num_leb _ _); [intros [H|[]]; discriminate|].
    destruct (TaskCard.isTimeRangeOverlap _ _ _ _ _); [intros [H|[]]; discriminate|].
    simpl. intros [H|[]]. injection H as <-.
    split; [reflexivity|]. split.
    + unfold totalDuration_ok. simpl. rewrite reduceDuration_sum. reflexivity.
    + eexists. split; reflexivity.
  - intros logId st. unfold TaskCard.handleDeleteLog. simpl.
    split; [reflexivity|]. split.
    + unfold totalDuration_ok. simpl. rewrite reduceDuration_sum. reflexivity.
    + destruct (Task.logs (TaskCard.localTask st)); reflexivity.
Qed.

(** Adding 11:00-12:00 to a task that holds 09:30-10:30. *)
Lemma C7_witness :
  In (TaskCard.OnUpdate
        (Task.with_logs
           [log_0930_1030;
            TaskLog.mk "1704067200200" "2024-01-01" "11:00" "12:00" (Num 60)]
           (Num 120)
           (TaskCard.localTask (cardWith [log_0930_1030] "11:00" "12:00"))))
     (snd (TaskCard.handleAddLog (R := es_runtime)
             (Some (Page.validateTimeRange (R := es_runtime)
                      (TaskCard.localTask (cardWith [log_0930_1030] "11:00" "12:00"))))
             "1704067200200" "2024-01-02"
             (cardWith [log_0930_1030] "11:00" "12:00")))
  /\ totalDuration_ok
       (Task.with_logs
          [log_0930_1030;
           TaskLog.mk "1704067200200" "2024-01-01" "11:00" "12:00" (Num 60)]
          (Num 120)
          (TaskCard.localTask (cardWith [log_0930_1030] "11:00" "12:00"))).
Proof.
  assert (Hin : In (TaskCard.OnUpdate
        (Task.with_logs
           [log_0930_1030;
            TaskLog.mk "1704067200200" "2024-01-01" "11:00" "12:00" (Num 60)]
           (Num 120)
           (TaskCard.localTask (cardWith [log_0930_1030] "11:00" "12:00"))))
     (snd (TaskCard.handleAddLog (R := es_runtime)
             (Some (Page.validateTimeRange (R := es_runtime)
                      (TaskCard.localTask (cardWith [log_0930_1030] "11:00" "12:00"))))
             "1704067200200" "2024-01-02"
             (cardWith [log_0930_1030] "11:00" "12:00")))).
  { left. reflexivity. }
  split; [exact Hin|].
  exact (proj1 (proj2 (proj1 (C7_totalDuration_is_sum (R := es_runtime))
                         _ _ _ _ _ Hin))).
Defined.


(** A validator that compares against the logs it is handed. *)
Definition validateAgainstGiven `{R : JsRuntime} : TaskCard.Validator :=
  fun startTime endTime logs => Page.isTimeRangeOverlap startTime endTime logs.

(** C4 as stated fails: the existing log 09:30-10:30 has an id that no
    candidate carries, yet for a candidate with the same date and times
    it is left out of the comparison set: whatever validator the card
    has, it is asked about the empty list. *)
Lemma C4_counterexample :
  TaskLog.id log_0930_1030 <> "1704067200200"
  /\ TaskCard.otherLogs (Some [log_0930_1030]) "09:30" "10:30" "2024-01-01" = []
  /\ forall validate,
       TaskCard.isTimeRangeOverlap (Some validate)
         (TaskCard.localTask (cardWith [log_0930_1030] "09:30" "10:30"))
         "09:30" "10:30" "2024-01-01"
       = validate "09:30" "10:30" [].
Proof.
  split; [discriminate|]. split; [reflexivity|]. intros validate. reflexivity.
Qed.

(** A validator that compares against the list it is handed accepts the
    duplicate, and the log is added a second time. *)
Example duplicate_accepted_on_given_list :
  snd (TaskCard.handleAddLog (R := es_runtime)
         (Some (validateAgainstGiven (R := es_runtime)))
         "1704067200200" "2024-01-02"
         (cardWith [log_0930_1030] "09:30" "10:30"))
  = [TaskCard.OnUpdate
       (Task.with_logs
          [log_0930_1030;
           TaskLog.mk "1704067200200" "2024-01-01" "09:30" "10:30" (Num 60)]
          (Num 120)
          (TaskCard.localTask (cardWith [log_0930_1030] "09:30" "10:30")))].
Proof. reflexivity. Qed.

(** C4, amended.  The comparison set that TaskCard hands to the validator
    holds exactly the existing logs that differ from the candidate in
    date, startTime or endTime; the id of a log plays no part.  The
    validator decides on that set; the one that page.tsx passes drops the
    set and compares against all of [task.logs]. *)
Theorem C4_comparison_set_by_fields `{R : JsRuntime}
        (logs : list TaskLog.t) (start end_ date : string) :
  (forall log,
      In log (TaskCard.otherLogs (Some logs) start end_ date)
      <-> In log logs
          /\ ~ (TaskLog.date log = date /\ TaskLog.startTime log = start
                /\ TaskLog.endTime log = end_))
  /\ (forall validate localTask,
         Task.logs localTask = Some logs ->
         TaskCard.isTimeRangeOverlap (Some validate) localTask start end_ date
         = validate start end_ (TaskCard.otherLogs (Some logs) start end_ date))
  /\ (forall task localTask,
         TaskCard.isTimeRangeOverlap (Some (Page.validateTimeRange task))
           localTask start end_ date
         = Page.isTimeRangeOverlap start end_ (logs_or_empty (Task.logs task))).
Proof.
  split; [|split].
  - intros log. unfold TaskCard.otherLogs. rewrite filter_In.
    rewrite !orb_true_iff, !negb_true_iff.
    destruct (String.eqb_spec (TaskLog.date log) date);
      destruct (String.eqb_spec (TaskLog.startTime log) start);
      destruct (String.eqb_spec (TaskLog.endTime log) end_);
      intuition congruence.
  - intros validate localTask E. unfold TaskCard.isTimeRangeOverlap.
    rewrite E. reflexivity.
  - intros task localTask. reflexivity.
Qed.

Lemma C4_witness :
  Task.logs (TaskCard.localTask (cardWith [log_0930_1030] "09:30" "10:30"))
  = Some [log_0930_1030]
  /\ TaskCard.isTimeRangeOverlap
       (Some (validateAgainstGiven (R := es_runtime)))
       (TaskCard.localTask (cardWith [log_0930_1030] "09:30" "10:30"))
       "09:30" "10:30" "2024-01-01"
     = validateAgainstGiven (R := es_runtime) "09:30" "10:30"
         (TaskCard.otherLogs (Some [log_0930_1030]) "09:30" "10:30" "2024-01-01").
Proof.
  split; [reflexivity|].
  apply (proj1 (proj2 (C4_comparison_set_by_fields (R := es_runtime)
                         [log_0930_1030] "09:30" "10:30" "2024-01-01"))
           (validateAgainstGiven (R := es_runtime))
           (TaskCard.localTask (cardWith [log_0930_1030] "09:30" "10:30"))
           eq_refl).
Defined.

(** With the validator of page.tsx the same candidate is rejected as
    overlapping, since every log of the task is compared. *)
Example duplicate_rejected_by_page_validator :
  snd (TaskCard.handleAddLog (R := es_runtime)
         (Some (Page.validateTimeRange (R := es_runtime)
                  (TaskCard.localTask (cardWith [log_0930_1030] "09:30" "10:30"))))
         "1704067200200" "2024-01-02"
         (cardWith [log_0930_1030] "09:30" "10:30"))
  = [TaskCard.Alert TaskCard.msgOverlap].
Proof. reflexivity. Qed.


(* ================================================================== *)
(** ** Reordering *)

Section SpliceFacts.
Context {A : Type}.

Lemma findIndex_Some (p : A -> bool) l i :
  findIndex p l = Some i -> exists x, nth_error l i = Some x /\ p x = true.
Proof.
  revert i. induction l as [|y l IH]; simpl; intros i; [discriminate|].
  destruct (p y) eqn:Hp.
  - intros [= <-]. exists y. split; [reflexivity | exact Hp].
  - destruct (findIndex p l) as [j|]; [|discriminate].
    intros [= <-]. apply IH. reflexivity.
Qed.

Lemma findIndex_In (p : A -> bool) l x :
  In x l -> p x = true -> exists i, findIndex p l = Some i.
Proof.
  induction l as [|y l IH]; simpl; intros Hin Hp; [contradiction|].
  destruct (p y) eqn:Hy; [eexists; reflexivity|].
  destruct Hin as [-> | Hin]; [congruence|].
  destruct (IH Hin Hp) as [i ->]. eexists; reflexivity.
Qed.

Lemma splice_remove_split (l1 : list A) x l2 :
  splice_remove (List.length l1) (l1 ++ x :: l2) = l1 ++ l2.
Proof.
  induction l1 as [|a l1 IH]; [reflexivity|].
  unfold splice_remove in *. simpl. f_equal. exact IH.
Qed.

Lemma splice_insert_perm i (x : A) l : Permutation (splice_insert i x l) (x :: l).
Proof.
  unfold splice_insert. rewrite <- Permutation_middle.
  rewrite firstn_skipn. reflexivity.
Qed.

Lemma filter_splice_insert_false (p : A -> bool) i x l :
  p x = false -> filter p (splice_insert i x l) = filter p l.
Proof.
  intros Hp. unfold splice_insert. rewrite filter_app. simpl. rewrite Hp.
  rewrite <- filter_app, firstn_skipn. reflexivity.
Qed.

Lemma length_filter_splice_insert_true (p : A -> bool) i x l :
  p x = true ->
  List.length (filter p (splice_insert i x l)) = S (List.length (filter p l)).
Proof.
  intros Hp. unfold splice_insert. rewrite filter_app. simpl. rewrite Hp.
  rewrite <- (firstn_skipn i l) at 3.
  rewrite filter_app, !List.length_app. simpl. lia.
Qed.

End SpliceFacts.

Lemma incomplete_completed t : Page.incomplete_ t = true -> Task.completed t = false.
Proof. unfold Page.incomplete_. destruct (Task.completed t); [discriminate | reflexivity]. Qed.

Lemma renumber_completed k l :
  filter Task.completed (Page.renumber k l) = filter Task.completed l.
Proof.
  revert k. induction l as [|t l IH]; intros k; simpl; [reflexivity|].
  destruct (Task.completed t) eqn:E; simpl.
  - rewrite E, IH. reflexivity.
  - rewrite E. apply IH.
Qed.

Lemma renumber_ids k l : map Task.id (Page.renumber k l) = map Task.id l.
Proof.
  revert k. induction l as [|t l IH]; intros k; simpl; [reflexivity|].
  destruct (Task.completed t); simpl; rewrite IH; reflexivity.
Qed.

Lemma renumber_orders k l :
  map Task.order (filter Page.incomplete_ (Page.renumber k l))
  = map (fun i => k + Z.of_nat i) (seq 0 (List.length (filter Page.incomplete_ l))).
Proof.
  revert k. induction l as [|t l IH]; intros k; [reflexivity|].
  cbn [Page.renumber filter].
  destruct (Task.completed t) eqn:E; cbn [negb filter].
  - replace (Page.incomplete_ t) with false
      by (unfold Page.incomplete_; rewrite E; reflexivity).
    apply IH.
  - replace (Page.incomplete_ (Task.with_order k t)) with true
      by (unfold Page.incomplete_; simpl; rewrite E; reflexivity).
    replace (Page.incomplete_ t) with true
      by (unfold Page.incomplete_; rewrite E; reflexivity).
    cbn [map List.length seq]. rewrite IH. f_equal.
    + simpl. lia.
    + rewrite <- seq_shift, map_map. apply map_ext. intros i. lia.
Qed.

(** What [moveTask] computes when both indices resolve to a task. *)
Lemma moveTask_resolved dragIndex hoverIndex prevTasks td th :
  NoDup (map Task.id prevTasks) ->
  nth_error (filter Page.incomplete_ prevTasks) dragIndex = Some td ->
  nth_error (filter Page.incomplete_ prevTasks) hoverIndex = Some th ->
  Task.id td <> EmptyString -> Task.id th <> EmptyString ->
  exists j l1 l2,
    prevTasks = l1 ++ td :: l2
    /\ Page.moveTask dragIndex hoverIndex prevTasks
       = (Page.renumber 0 (splice_insert j td (l1 ++ l2)),
          Some (filter Page.incomplete_
                  (Page.renumber 0 (splice_insert j td (l1 ++ l2))))).
Proof.
  intros Hnd Hd Hh Hid Hih.
  assert (Hind : In td prevTasks)
    by (apply nth_error_In in Hd; apply filter_In in Hd; tauto).
  assert (Hinh : In th prevTasks)
    by (apply nth_error_In in Hh; apply filter_In in Hh; tauto).
  destruct (findIndex_In (fun t => (Task.id t =? Task.id td)%string)
              prevTasks td Hind (String.eqb_refl _)) as [i Hi].
  destruct (findIndex_In (fun t => (Task.id t =? Task.id th)%string)
              prevTasks th Hinh (String.eqb_refl _)) as [j Hj].
  destruct (findIndex_Some _ _ _ Hi) as (x & Hx & Ex).
  apply String.eqb_eq in Ex.
  assert (x = td)
    by (eapply NoDup_map_injective_on; eauto; eapply nth_error_In; eauto).
  subst x.
  destruct (nth_error_split _ _ Hx) as (l1 & l2 & Hsplit & Hlen).
  exists j, l1, l2. split; [exact Hsplit|].
  unfold Page.moveTask. cbv zeta. rewrite Hd, Hh. cbn [option_map truthy].
  apply String.eqb_neq in Hid, Hih. rewrite Hid, Hih. cbn [negb orb].
  rewrite Hi, Hj, Hx. cbv beta iota.
  subst i. rewrite Hsplit, splice_remove_split. reflexivity.
Qed.

(** C6.  On a task list with distinct, non-empty ids and two indices
    into its incomplete tasks, [moveTask] returns a list whose
    incomplete tasks carry, in list order, the orders 0, 1, ..., n-1, and
    whose completed tasks are the same records in the same relative order
    as before; the batch it persists is the incomplete tasks of that
    list, and the list holds the same tasks as before. *)
Theorem C6_moveTask_orders (dragIndex hoverIndex : nat) (prevTasks : list Task.t) :
  NoDup (map Task.id prevTasks) ->
  (forall t, In t prevTasks -> Task.id t <> EmptyString) ->
  (dragIndex < List.length (filter Page.incomplete_ prevTasks))%nat ->
  (hoverIndex < List.length (filter Page.incomplete_ prevTasks))%nat ->
  map Task.order
      (filter Page.incomplete_ (fst (Page.moveTask dragIndex hoverIndex prevTasks)))
  = map Z.of_nat (seq 0 (List.length (filter Page.incomplete_ prevTasks)))
  /\ filter Task.completed (fst (Page.moveTask dragIndex hoverIndex prevTasks))
     = filter Task.completed prevTasks
  /\ snd (Page.moveTask dragIndex hoverIndex prevTasks)
     = Some (filter Page.incomplete_
               (fst (Page.moveTask dragIndex hoverIndex prevTasks)))
  /\ Permutation (map Task.id (fst (Page.moveTask dragIndex hoverIndex prevTasks)))
                 (map Task.id prevTasks).
Proof.
  intros Hnd Hids Hd Hh.
  destruct (nth_error (filter Page.incomplete_ prevTasks) dragIndex) as [td|] eqn:Ed;
    [|apply nth_error_None in Ed; lia].
  destruct (nth_error (filter Page.incomplete_ prevTasks) hoverIndex) as [th|] eqn:Eh;
    [|apply nth_error_None in Eh; lia].
  assert (Htd : In td prevTasks /\ Page.incomplete_ td = true)
    by (apply filter_In; eapply nth_error_In; eauto).
  assert (Hth : In th prevTasks)
    by (apply nth_error_In in Eh; apply filter_In in Eh; tauto).
  destruct Htd as [Hin Hinc].
  destruct (moveTask_resolved dragIndex hoverIndex prevTasks td th Hnd Ed Eh
              (Hids td Hin) (Hids th Hth)) as (j & l1 & l2 & Hsplit & Hmove).
  rewrite Hmove. cbn [fst snd].
  pose proof (incomplete_completed td Hinc) as Hc.
  split; [|split; [|split]].
  - rewrite renumber_orders.
    rewrite (length_filter_splice_insert_true _ _ _ _ Hinc).
    rewrite Hsplit, !filter_app. cbn [filter]. rewrite Hinc.
    rewrite !List.length_app. cbn [List.length]. rewrite Nat.add_succ_r.
    apply map_ext. intros i. lia.
  - rewrite renumber_completed, (filter_splice_insert_false _ _ _ _ Hc).
    rewrite Hsplit, !filter_app. cbn [filter]. rewrite Hc. reflexivity.
  - reflexivity.
  - rewrite renumber_ids, Hsplit.
    apply Permutation_map. rewrite splice_insert_perm.
    apply Permutation_middle.
Qed.

(** Three tasks, the middle one completed; the first incomplete task is
    dragged onto the second. *)
Definition threeTasks : list Task.t :=
  [Task.mk "1704067200010" "first" "open" "2024-01-01" false 5 false None None
     None None (Some []) (Some (Num 0));
   Task.mk "1704067200011" "second" "done" "2024-01-01" false 7 true
     (Some "2024-01-01T08:00:00.000Z") None None None (Some []) (Some (Num 0));
   Task.mk "1704067200012" "third" "open" "2024-01-01" false 9 false None None
     None None (Some []) (Some (Num 0))].

Lemma threeTasks_ids : NoDup (map Task.id threeTasks).
Proof.
  repeat constructor; simpl; intuition discriminate.
Qed.

Lemma threeTasks_nonempty t : In t threeTasks -> Task.id t <> EmptyString.
Proof.
  simpl. intros [<- | [<- | [<- | []]]]; discriminate.
Qed.

Lemma C6_witness :
  map Task.order (filter Page.incomplete_ (fst (Page.moveTask 0 1 threeTasks)))
  = [0; 1]
  /\ filter Task.completed (fst (Page.moveTask 0 1 threeTasks))
     = filter Task.completed threeTasks.
Proof.
  destruct (C6_moveTask_orders 0 1 threeTasks threeTasks_ids threeTasks_nonempty)
    as (Ho & Hc & _).
  - simpl. lia.
  - simpl. lia.
  - split; [exact Ho | exact Hc].
Defined.

Example moveTask_threeTasks :
  map (fun t => (Task.title t, Task.order t)) (fst (Page.moveTask 0 1 threeTasks))
  = [("second", 7); ("third", 0); ("first", 1)].
Proof. reflexivity. Qed.

(* ================================================================== *)
(** ** The range lookup *)

Section RangeFacts.
Context `{R : JsRuntime}.

(** The overlap test of the second cursor of [getTasksByDateRange]. *)
Definition overlapsRange (startDate endDate : string) (task : Task.t) : bool :=
  let taskStart := Date_getTime (Task.startDate task) in
  let taskEnd := Date_getTime (Task.endDate task) in
  let rangeStart := Date_getTime (Some startDate) in
  let rangeEnd := Date_getTime (Some endDate) in
  (num_geb taskStart rangeStart && num_leb taskStart rangeEnd)
  || (num_geb taskEnd rangeStart && num_leb taskEnd rangeEnd)
  || (num_leb taskStart rangeStart && num_geb taskEnd rangeEnd).

Lemma fold_overlapStep startDate endDate l acc :
  fold_left (Db.overlapStep startDate endDate) l acc
  = Db.mkAcc
      (Db.tasks acc
       ++ filter (fun t => truthy (Task.startDate t) && truthy (Task.endDate t)
                           && negb (has (Db.seenIds acc) (Task.id t))
                           && overlapsRange startDate endDate t) l)
      (Db.seenIds acc).
Proof.
  revert acc. induction l as [|x l IH]; intros acc; simpl.
  - rewrite app_nil_r. destruct acc; reflexivity.
  - rewrite IH. unfold Db.overlapStep. fold (overlapsRange startDate endDate x).
    destruct (truthy (Task.startDate x) && truthy (Task.endDate x)
              && negb (has (Db.seenIds acc) (Task.id x))); simpl; [|reflexivity].
    destruct (overlapsRange startDate endDate x); simpl;
      [rewrite <- app_assoc|]; reflexivity.
Qed.


End RangeFacts.

(** A task that is not ad-hoc, whose [date] lies outside its range. *)
Definition taskOffRange : Task.t :=
  Task.mk "1704067200003" "D" "range task" "2024-02-01" false 0 false None
          (Some "2024-01-05") (Some "2024-01-01") (Some "2024-01-05")
          (Some []) (Some (Num 0)).

(** The exact-date lookup returns it on its [date]; the resolver does not
    show it there. *)
Example getTasksByDate_returns_off_range :
  Db.getTasksByDate (R := es_runtime) [taskOffRange] "2024-02-01" = [taskOffRange]
  /\ Page.shouldTaskAppearOnDate (R := es_runtime) taskOffRange "2024-02-01" = false.
Proof. split; reflexivity. Qed.

(* ================================================================== *)
(** ** The weekly report *)

Lemma summaryDataForExport_unbound :
  has Page.exportScope "summaryDataForExport" = false.
Proof. reflexivity. Qed.

(** A weekday without visible tasks gets the placeholder row, and no
    weekday gets an empty table. *)
Lemma dayRows_nonempty `{R : JsRuntime} allTasks dateStr :
  Page.dayRows allTasks dateStr <> []
  /\ (filter (fun task => Page.shouldTaskAppearOnDate task dateStr) allTasks = [] ->
      Page.dayRows allTasks dateStr = [Page.noTasksRow]).
Proof.
  unfold Page.dayRows. split.
  - destruct (flat_map Page.taskRows _); discriminate.
  - intros ->. reflexivity.
Qed.

(** C9 fails on the code: the summary sheet is built from
    [summaryDataForExport], an identifier that nothing declares; reading
    it throws inside the try block, so for every store and every week the
    export ends in the alert of the catch block and writes no file. *)
Theorem C9_exportWeeklyReport_never_writes `{R : JsRuntime}
        (store : Db.Store) (weekDates : list string) (weekRange : string) :
  Page.exportWeeklyReport store weekDates weekRange
  = Page.Alerted "导出周报失败，请重试"
  /\ forall fileName wb,
       Page.exportWeeklyReport store weekDates weekRange <> Page.Written fileName wb.
Proof.
  assert (E : Page.exportWeeklyReport store weekDates weekRange
              = Page.Alerted "导出周报失败，请重试").
  { unfold Page.exportWeeklyReport, Page.resolve.
    rewrite summaryDataForExport_unbound. reflexivity. }
  split; [exact E|]. intros fileName wb. rewrite E. discriminate.
Qed.

(* ================================================================== *)
(** * The store as a keyed collection *)

(** ** The order of keys *)

Lemma ascii_compare_refl a : Ascii.compare a a = Eq.
Proof. unfold Ascii.compare. apply N.compare_refl. Qed.

Lemma ascii_compare_lt_trans a b c :
  Ascii.compare a b = Lt -> Ascii.compare b c = Lt -> Ascii.compare a c = Lt.
Proof.
  unfold Ascii.compare. rewrite !N.compare_lt_iff. apply N.lt_trans.
Qed.

Lemma string_compare_refl s : String.compare s s = Eq.
Proof.
  induction s as [|a s IH]; simpl; [reflexivity|].
  rewrite ascii_compare_refl. exact IH.
Qed.

Lemma string_compare_lt_trans s1 s2 s3 :
  String.compare s1 s2 = Lt -> String.compare s2 s3 = Lt ->
  String.compare s1 s3 = Lt.
Proof.
  revert s2 s3. induction s1 as [|a s1 IH]; intros [|b s2] [|c s3]; simpl;
    try discriminate; try reflexivity.
  destruct (Ascii.compare a b) eqn:Eab; try discriminate;
    destruct (Ascii.compare b c) eqn:Ebc; try discriminate; intros H1 H2.
  - apply Ascii.compare_eq_iff in Eab, Ebc. subst.
    rewrite ascii_compare_refl. eapply IH; eauto.
  - apply Ascii.compare_eq_iff in Eab. subst. rewrite Ebc. reflexivity.
  - apply Ascii.compare_eq_iff in Ebc. subst. rewrite Eab. reflexivity.
  - rewrite (ascii_compare_lt_trans _ _ _ Eab Ebc). reflexivity.
Qed.

Lemma string_compare_Gt_Lt s1 s2 :
  String.compare s1 s2 = Gt -> String.compare s2 s1 = Lt.
Proof.
  intros H. rewrite String.compare_antisym, H. reflexivity.
Qed.

Lemma string_compare_Lt_neq s1 s2 : String.compare s1 s2 = Lt -> s1 <> s2.
Proof. intros H ->. rewrite string_compare_refl in H. discriminate. Qed.

(** ** Stores in key order *)

Definition key_lt (a b : Task.t) : Prop :=
  String.compare (Task.id a) (Task.id b) = Lt.

(** The records of an object store come in the strict order of their
    keys. *)
Definition store_sorted (store : Db.Store) : Prop :=
  StronglySorted key_lt store.

Lemma store_sorted_ok store : store_sorted store -> Db.store_ok store.
Proof.
  unfold store_sorted, Db.store_ok.
  induction 1 as [|t store Hs IH Hall]; simpl; constructor; [|exact IH].
  intros Hin. apply in_map_iff in Hin as (t' & E & Hin).
  rewrite Forall_forall in Hall. specialize (Hall t' Hin).
  apply string_compare_Lt_neq in Hall. congruence.
Qed.

Lemma hasKey_In store id :
  Db.hasKey store id = true <-> In id (map Task.id store).
Proof.
  unfold Db.hasKey. rewrite existsb_exists, in_map_iff.
  split; intros (t & H1 & H2); exists t.
  - apply String.eqb_eq in H2. tauto.
  - split; [tauto | apply String.eqb_eq; tauto].
Qed.

Lemma put_In_weak record store t :
  In t (Db.put record store) -> t = record \/ In t store.
Proof.
  induction store as [|x store IH]; simpl.
  - intros [<-|[]]. left; reflexivity.
  - destruct (String.compare (Task.id record) (Task.id x)); simpl.
    + intros [<-|H]; auto.
    + intros [<-|[<-|H]]; auto.
    + intros [<-|H]; auto. destruct (IH H); auto.
Qed.

Lemma put_sorted record store :
  store_sorted store -> store_sorted (Db.put record store).
Proof.
  unfold store_sorted.
  induction 1 as [|x store Hs IH Hall]; simpl.
  - constructor; constructor.
  - destruct (String.compare (Task.id record) (Task.id x)) eqn:E.
    + apply String.compare_eq_iff in E.
      constructor; [exact Hs|].
      eapply Forall_impl; [|exact Hall]. intros a Ha.
      unfold key_lt in *. rewrite E. exact Ha.
    + constructor; [constructor; assumption|].
      constructor; [exact E|].
      eapply Forall_impl; [|exact Hall]. intros a Ha.
      unfold key_lt in *. eapply string_compare_lt_trans; eauto.
    + constructor; [exact IH|].
      apply Forall_forall. intros a Ha.
      destruct (put_In_weak _ _ _ Ha) as [->|Hin].
      * apply string_compare_Gt_Lt. exact E.
      * rewrite Forall_forall in Hall. apply Hall. exact Hin.
Qed.

(** Which records a store holds after a put. *)
Lemma put_In record store t :
  store_sorted store ->
  In t (Db.put record store)
  <-> t = record \/ (In t store /\ Task.id t <> Task.id record).
Proof.
  unfold store_sorted.
  induction 1 as [|x store Hs IH Hall]; simpl.
  - intuition.
  - rewrite Forall_forall in Hall.
    destruct (String.compare (Task.id record) (Task.id x)) eqn:E; simpl.
    + apply String.compare_eq_iff in E. split.
      * intros [<-|H]; [left; reflexivity|]. right. split; [tauto|].
        specialize (Hall t H). apply string_compare_Lt_neq in Hall. congruence.
      * intros [->|[[<-|H] Hne]]; [tauto | congruence | tauto].
    + split.
      * intros [<-|[<-|H]]; [tauto | |].
        -- right. split; [tauto|].
           apply string_compare_Lt_neq in E. congruence.
        -- right. split; [tauto|].
           specialize (Hall t H).
           pose proof (string_compare_lt_trans _ _ _ E Hall) as L.
           apply string_compare_Lt_neq in L. congruence.
      * intros [->|[[<-|H] _]]; tauto.
    + rewrite IH. split.
      * intros [<-|[->|[H Hne]]]; [|tauto|tauto].
        right. split; [tauto|].
        apply string_compare_Gt_Lt, string_compare_Lt_neq in E. exact E.
      * intros [->|[[<-|H] Hne]]; tauto.
Qed.

Lemma put_absent_delete record store :
  store_sorted store ->
  Db.hasKey store (Task.id record) = false ->
  Db.deleteTask (Task.id record) (Db.put record store) = store.
Proof.
  unfold store_sorted, Db.deleteTask.
  induction 1 as [|x store Hs IH Hall]; simpl; intros Hk.
  - rewrite String.eqb_refl. reflexivity.
  - apply orb_false_iff in Hk as [Hx Hk].
    assert (Hfix : filter (fun t => negb (Task.id t =? Task.id record)%string) store
                   = store).
    { clear -Hk. induction store as [|y store IH]; simpl in *; [reflexivity|].
      apply orb_false_iff in Hk as [Hy Hk]. rewrite Hy. simpl. f_equal. auto. }
    destruct (String.compare (Task.id record) (Task.id x)) eqn:E; simpl.
    + apply String.compare_eq_iff in E. rewrite E, String.eqb_refl in Hx.
      discriminate.
    + rewrite String.eqb_refl, Hx. simpl. f_equal. exact Hfix.
    + rewrite Hx. simpl. f_equal. apply IH. exact Hk.
Qed.

Lemma put_put record record' store :
  store_sorted store -> Task.id record = Task.id record' ->
  Db.put record' (Db.put record store) = Db.put record' store.
Proof.
  unfold store_sorted. intros Hs Eid.
  induction Hs as [|x store Hs IH Hall]; simpl.
  - rewrite <- Eid, string_compare_refl. reflexivity.
  - rewrite <- Eid.
    destruct (String.compare (Task.id record) (Task.id x)) eqn:E; simpl.
    + rewrite <- Eid, string_compare_refl. reflexivity.
    + rewrite <- Eid, string_compare_refl. reflexivity.
    + rewrite <- Eid, E. f_equal. rewrite IH. reflexivity.
Qed.

Lemma withDefaults_id t : Task.id (Db.withDefaults t) = Task.id t.
Proof. reflexivity. Qed.

Lemma date_or_idem v d : Db.date_or (Db.date_or v d) d = Db.date_or v d.
Proof.
  unfold Db.date_or.
  destruct (truthy v) eqn:Hv; cbv iota; [rewrite Hv; reflexivity|].
  destruct (truthy (Some d)) eqn:Hd; cbv iota; [rewrite Hd; reflexivity|].
  reflexivity.
Qed.

Lemma withDefaults_idem t : Db.withDefaults (Db.withDefaults t) = Db.withDefaults t.
Proof.
  unfold Db.withDefaults. simpl. rewrite !date_or_idem.
  destruct (Task.totalDuration t) as [[z|]|]; reflexivity.
Qed.

Definition str_lt (a b : string) : Prop := String.compare a b = Lt.

Lemma store_sorted_ids store :
  store_sorted store <-> StronglySorted str_lt (map Task.id store).
Proof.
  unfold store_sorted. induction store as [|x store IH]; simpl.
  - split; constructor.
  - split; intros H; inversion H as [|? ? Hs Hall]; subst; constructor.
    + apply IH. exact Hs.
    + rewrite Forall_map. exact Hall.
    + apply IH. exact Hs.
    + rewrite Forall_map in Hall. exact Hall.
Qed.

Lemma store_sorted_same_ids store store' :
  map Task.id store = map Task.id store' ->
  store_sorted store -> store_sorted store'.
Proof. rewrite !store_sorted_ids. intros ->. auto. Qed.

Lemma store_sorted_filter (p : Task.t -> bool) store :
  store_sorted store -> store_sorted (filter p store).
Proof.
  unfold store_sorted.
  induction 1 as [|x store Hs IH Hall]; simpl; [constructor|].
  destruct (p x); [|exact IH].
  constructor; [exact IH|].
  rewrite Forall_forall in *. intros a Ha. apply Hall.
  apply filter_In in Ha. tauto.
Qed.

(** A put on the key of a stored record replaces it where it stands. *)
Lemma put_middle record l1 x l2 :
  store_sorted (l1 ++ x :: l2) -> Task.id record = Task.id x ->
  Db.put record (l1 ++ x :: l2) = l1 ++ record :: l2.
Proof.
  unfold store_sorted. intros Hs Eid.
  induction l1 as [|y l1 IH]; simpl in *.
  - rewrite Eid, string_compare_refl. reflexivity.
  - inversion Hs as [|? ? Hs' Hall]; subst.
    rewrite Forall_forall in Hall.
    assert (Hy : key_lt y x) by (apply Hall, in_or_app; right; left; reflexivity).
    unfold key_lt in Hy.
    rewrite Eid, String.compare_antisym, Hy. simpl.
    f_equal. apply IH. exact Hs'.
Qed.

Lemma put_ids_present record store :
  store_sorted store -> Db.hasKey store (Task.id record) = true ->
  map Task.id (Db.put record store) = map Task.id store.
Proof.
  intros Hs Hk. apply hasKey_In in Hk.
  apply in_map_iff in Hk as (x & Eid & Hin).
  apply in_split in Hin as (l1 & l2 & ->).
  rewrite (put_middle record l1 x l2 Hs (eq_sym Eid)).
  rewrite !map_app. simpl. rewrite Eid. reflexivity.
Qed.

Definition store4 : Db.Store := [taskA; taskSomeday; taskAdHoc; taskOffRange].

Lemma store4_sorted : store_sorted store4.
Proof. unfold store_sorted, store4. repeat constructor. Qed.

(** X1.  [updateTask] on a store in key order keeps it so and writes
    the task with its defaults filled in: reading all tasks back yields
    that record, every record of another id is kept, none is added
    beside, and when the id was stored the keys of the store are the
    same as before. *)
Theorem X1_updateTask_replaces (task : Task.t) (store : Db.Store) :
  store_sorted store ->
  store_sorted (Db.updateTask task store)
  /\ In (Db.withDefaults task) (Db.getAllTasks (Db.updateTask task store))
  /\ (forall t, In t (Db.updateTask task store)
                <-> t = Db.withDefaults task
                    \/ (In t store /\ Task.id t <> Task.id task))
  /\ (Db.hasKey store (Task.id task) = true ->
      map Task.id (Db.updateTask task store) = map Task.id store).
Proof.
  intros Hs. unfold Db.updateTask. split; [apply put_sorted; exact Hs|].
  split; [|split].
  - unfold Db.getAllTasks. rewrite <- (withDefaults_idem task) at 1.
    apply in_map. apply put_In; [exact Hs | left; reflexivity].
  - intros t. rewrite (put_In _ _ _ Hs). rewrite withDefaults_id. reflexivity.
  - intros Hk. apply put_ids_present; [exact Hs | exact Hk].
Qed.

Lemma X1_witness :
  store_sorted store4
  /\ In (Db.withDefaults (Task.with_order 3 taskAdHoc))
        (Db.getAllTasks (Db.updateTask (Task.with_order 3 taskAdHoc) store4)).
Proof.
  split; [exact store4_sorted|].
  exact (proj1 (proj2 (X1_updateTask_replaces (Task.with_order 3 taskAdHoc)
                         store4 store4_sorted))).
Defined.

(** X2.  [addTask] on a store in key order: when the generated id is
    already a key the write is rejected; otherwise the created task
    carries that id and the defaults, the store stays in key order and
    holds the created task beside exactly the records it held, and
    reading all tasks back yields the created task unchanged. *)
Theorem X2_addTask_creates (now : string) (task : Task.t) (store : Db.Store) :
  store_sorted store ->
  (Db.hasKey store now = true -> Db.addTask now task store = None)
  /\ (Db.hasKey store now = false ->
      exists created store',
        Db.addTask now task store = Some (created, store')
        /\ Task.id created = now
        /\ Task.logs created = Some (logs_or_empty (Task.logs task))
        /\ Task.totalDuration created = Some (or_zero (Task.totalDuration task))
        /\ store_sorted store'
        /\ (forall t, In t store' <-> t = created \/ In t store)
        /\ In created (Db.getAllTasks store')).
Proof.
  intros Hs. unfold Db.addTask. split; intros Hk; rewrite Hk; [reflexivity|].
  eexists. eexists. split; [reflexivity|].
  split; [reflexivity|]. split; [reflexivity|]. split; [reflexivity|].
  split; [apply put_sorted; exact Hs|]. split.
  - intros t. rewrite (put_In _ _ _ Hs). simpl. split.
    + intros [->|[H _]]; auto.
    + intros [->|H]; [left; reflexivity|]. right. split; [exact H|].
      intros E. assert (Db.hasKey store now = true); [|congruence].
      apply hasKey_In. rewrite <- E. apply in_map. exact H.
  - unfold Db.getAllTasks.
    match goal with |- In ?c _ =>
      replace c with (Db.withDefaults c) at 1
    end.
    + apply in_map. apply put_In; [exact Hs | left; reflexivity].
    + unfold Db.withDefaults. simpl. rewrite !date_or_idem.
      destruct (Task.totalDuration task) as [[z|]|]; reflexivity.
Qed.

Lemma X2_witness :
  store_sorted store4 /\ Db.hasKey store4 "1704067200004" = false
  /\ exists created store',
       Db.addTask "1704067200004" taskA store4 = Some (created, store')
       /\ Task.id created = "1704067200004".
Proof.
  split; [exact store4_sorted|]. split; [reflexivity|].
  destruct (proj2 (X2_addTask_creates "1704067200004" taskA store4 store4_sorted)
              eq_refl) as (created & store' & H1 & H2 & _).
  exists created, store'. split; assumption.
Defined.

(** X3.  [deleteTask] on a store in key order keeps it so, leaves no
    record of the given id, keeps every other record, and leaves the
    store as it is when no record has that id. *)
Theorem X3_deleteTask_removes (id : string) (store : Db.Store) :
  store_sorted store ->
  store_sorted (Db.deleteTask id store)
  /\ Db.hasKey (Db.deleteTask id store) id = false
  /\ (forall t, In t (Db.deleteTask id store) <-> In t store /\ Task.id t <> id)
  /\ (Db.hasKey store id = false -> Db.deleteTask id store = store).
Proof.
  intros Hs. unfold Db.deleteTask.
  split; [apply store_sorted_filter; exact Hs|]. split; [|split].
  - destruct (Db.hasKey _ id) eqn:E; [|reflexivity]. exfalso.
    apply hasKey_In in E. apply in_map_iff in E as (t & Eid & Hin).
    apply filter_In in Hin as [_ Hne]. rewrite Eid, String.eqb_refl in Hne.
    discriminate.
  - intros t. rewrite filter_In, negb_true_iff, String.eqb_neq. reflexivity.
  - clear Hs. induction store as [|x store IH]; simpl; [reflexivity|].
    intros Hk. apply orb_false_iff in Hk as [Hx Hk].
    rewrite Hx. simpl. f_equal. apply IH. exact Hk.
Qed.

Lemma X3_witness :
  store_sorted store4
  /\ Db.deleteTask "1704067200001" store4 = [taskA; taskAdHoc; taskOffRange]
  /\ Db.hasKey (Db.deleteTask "1704067200001" store4) "1704067200001" = false.
Proof.
  split; [exact store4_sorted|]. split; [reflexivity|].
  exact (proj1 (proj2 (X3_deleteTask_removes "1704067200001" store4 store4_sorted))).
Defined.

(** X4.  Deleting the task that [addTask] has just created gives back
    the store as it was before the addition. *)
Theorem X4_add_then_delete (now : string) (task created : Task.t)
        (store store' : Db.Store) :
  store_sorted store ->
  Db.addTask now task store = Some (created, store') ->
  Db.deleteTask now store' = store.
Proof.
  intros Hs. unfold Db.addTask.
  destruct (Db.hasKey store now) eqn:Hk; [discriminate|].
  intros [= <- <-].
  apply (put_absent_delete
           (Task.mk now (Task.title task) (Task.description task) (Task.date task)
              (Task.isAdHoc task) (Task.order task) (Task.completed task)
              (Task.completedAt task) (Task.deadline task)
              (Db.date_or (Task.startDate task) (Task.date task))
              (Db.date_or (Task.endDate task) (Task.date task))
              (Some (logs_or_empty (Task.logs task)))
              (Some (or_zero (Task.totalDuration task)))) store Hs Hk).
Qed.

Lemma X4_witness :
  store_sorted store4
  /\ Db.addTask "1704067200004" taskA store4
     = Some (Task.mk "1704067200004" "A" "range task" "2024-01-01" false 0 false
               None None (Some "2024-01-01") (Some "2024-01-05") (Some [])
               (Some (Num 0)),
             store4 ++ [Task.mk "1704067200004" "A" "range task" "2024-01-01"
                          false 0 false None None (Some "2024-01-01")
                          (Some "2024-01-05") (Some []) (Some (Num 0))])
  /\ Db.deleteTask "1704067200004"
       (store4 ++ [Task.mk "1704067200004" "A" "range task" "2024-01-01"
                     false 0 false None None (Some "2024-01-01")
                     (Some "2024-01-05") (Some []) (Some (Num 0))])
     = store4.
Proof.
  split; [exact store4_sorted|]. split; [reflexivity|].
  exact (X4_add_then_delete "1704067200004" taskA _ store4 _ store4_sorted eq_refl).
Defined.

Lemma map_withDefaults_ids store :
  map Task.id (map Db.withDefaults store) = map Task.id store.
Proof. rewrite map_map. apply map_ext. intros t. reflexivity. Qed.

Lemma fold_put_defaults l2 l1 :
  store_sorted (l1 ++ l2) ->
  fold_left (fun store' task => Db.put (Db.withDefaults task) store') l2 (l1 ++ l2)
  = l1 ++ map Db.withDefaults l2.
Proof.
  revert l1. induction l2 as [|x l2 IH]; intros l1 Hs; simpl; [reflexivity|].
  rewrite (put_middle (Db.withDefaults x) l1 x l2 Hs (withDefaults_id x)).
  change (l1 ++ Db.withDefaults x :: l2) with (l1 ++ [Db.withDefaults x] ++ l2).
  rewrite app_assoc, IH, <- app_assoc; [reflexivity|].
  eapply store_sorted_same_ids; [|exact Hs].
  rewrite !map_app. simpl. rewrite <- app_assoc. reflexivity.
Qed.

(** X5.  On a store in key order the upgrade to version 4 fills in the
    defaults of every record in place; running it again changes nothing,
    and reading all tasks gives the same list before and after it. *)
Theorem X5_upgradeToV4_backfills (store : Db.Store) :
  store_sorted store ->
  Db.upgradeToV4 store = map Db.withDefaults store
  /\ Db.upgradeToV4 (Db.upgradeToV4 store) = Db.upgradeToV4 store
  /\ Db.getAllTasks (Db.upgradeToV4 store) = Db.getAllTasks store
  /\ store_sorted (Db.upgradeToV4 store).
Proof.
  intros Hs.
  assert (Hup : forall s, store_sorted s -> Db.upgradeToV4 s = map Db.withDefaults s).
  { intros s Hsorted. unfold Db.upgradeToV4.
    apply (fold_put_defaults s [] Hsorted). }
  assert (Hs' : store_sorted (map Db.withDefaults store)).
  { eapply store_sorted_same_ids; [|exact Hs].
    symmetry. apply map_withDefaults_ids. }
  assert (Hidem : map Db.withDefaults (map Db.withDefaults store)
                  = map Db.withDefaults store).
  { rewrite map_map. apply map_ext. intros t. apply withDefaults_idem. }
  rewrite (Hup store Hs). split; [reflexivity|].
  split; [rewrite (Hup _ Hs'); exact Hidem|].
  split; [exact Hidem | exact Hs'].
Qed.

(** A record written before version 4: no range, no logs, no total. *)
Definition taskLegacy : Task.t :=
  Task.mk "1704067200005" "E" "old record" "2023-12-31" false 2 false None None
          None None None None.

Lemma X5_witness :
  store_sorted [taskA; taskLegacy]
  /\ Db.upgradeToV4 [taskA; taskLegacy]
     = [taskA;
        Task.mk "1704067200005" "E" "old record" "2023-12-31" false 2 false None
          None (Some "2023-12-31") (Some "2023-12-31") (Some []) (Some (Num 0))].
Proof.
  assert (Hs : store_sorted [taskA; taskLegacy])
    by (unfold store_sorted; repeat constructor).
  split; [exact Hs|].
  rewrite (proj1 (X5_upgradeToV4_backfills [taskA; taskLegacy] Hs)).
  reflexivity.
Defined.

(** X6.  [batchUpdateTaskOrder] with a batch of distinct ids on a store
    in key order keeps it so; afterwards the store holds every task of
    the batch with its defaults filled in, and beside them exactly the
    records whose id is not in the batch. *)
Theorem X6_batchUpdateTaskOrder_writes (tasks : list Task.t) (store : Db.Store) :
  store_sorted store ->
  NoDup (map Task.id tasks) ->
  store_sorted (Db.batchUpdateTaskOrder tasks store)
  /\ forall t,
       In t (Db.batchUpdateTaskOrder tasks store)
       <-> (exists u, In u tasks /\ t = Db.withDefaults u)
           \/ (In t store /\ ~ In (Task.id t) (map Task.id tasks)).
Proof.
  unfold Db.batchUpdateTaskOrder.
  revert store. induction tasks as [|x tasks IH]; intros store Hs Hnd; simpl.
  - split; [exact Hs|]. intros t. split.
    + intros H. right. split; [exact H | intros []].
    + intros [(u & [] & _) | [H _]]. exact H.
  - inversion Hnd as [|? ? Hx Hnd']; subst.
    destruct (IH (Db.put (Db.withDefaults x) store) (put_sorted _ _ Hs) Hnd')
      as [Hsorted Hin].
    split; [exact Hsorted|].
    intros t. rewrite Hin, (put_In _ _ _ Hs), withDefaults_id. split.
    + intros [(u & Hu & ->) | [[-> | [Ht Hne]] Hnot]].
      * left. exists u. split; [right; exact Hu | reflexivity].
      * left. exists x. split; [left; reflexivity | reflexivity].
      * right. split; [exact Ht|]. intros [E | E]; [congruence | contradiction].
    + intros [(u & [<- | Hu] & ->) | [Ht Hnot]].
      * right. split; [left; reflexivity|]. exact Hx.
      * left. exists u. split; [exact Hu | reflexivity].
      * right. split.
        -- right. split; [exact Ht|]. intros E. apply Hnot. left. congruence.
        -- intros E. apply Hnot. right. exact E.
Qed.

Lemma X6_witness :
  store_sorted store4
  /\ NoDup (map Task.id [Task.with_order 4 taskOffRange; Task.with_order 5 taskA])
  /\ In (Db.withDefaults (Task.with_order 5 taskA))
        (Db.batchUpdateTaskOrder
           [Task.with_order 4 taskOffRange; Task.with_order 5 taskA] store4).
Proof.
  assert (Hnd : NoDup (map Task.id [Task.with_order 4 taskOffRange;
                                    Task.with_order 5 taskA])).
  { simpl. repeat constructor; simpl; intuition discriminate. }
  split; [exact store4_sorted|]. split; [exact Hnd|].
  apply (proj2 (X6_batchUpdateTaskOrder_writes _ store4 store4_sorted Hnd)).
  left. exists (Task.with_order 5 taskA). split; [right; left; reflexivity|reflexivity].
Defined.

(* ================================================================== *)
(** * The lookups and the resolver *)

Section SortFacts.
Context {A : Type} (key : A -> Z).

Definition byKey (a b : A) : Z := key a - key b.
Definition key_le (a b : A) : Prop := key a <= key b.

Lemma sort_insert_In cmp (x y : A) l :
  In y (sort_insert cmp x l) <-> y = x \/ In y l.
Proof.
  split; intros H.
  - apply (Permutation_in _ (sort_insert_perm cmp x l)) in H.
    destruct H; auto.
  - apply (Permutation_in _ (Permutation_sym (sort_insert_perm cmp x l))).
    destruct H; [left; auto | right; auto].
Qed.

Lemma sort_insert_sorted x l :
  StronglySorted key_le l -> StronglySorted key_le (sort_insert byKey x l).
Proof.
  induction 1 as [|y l Hs IH Hall]; simpl.
  - constructor; constructor.
  - unfold byKey at 1. destruct (Z.leb_spec (key x - key y) 0).
    + constructor; [constructor; assumption|].
      constructor; [unfold key_le; lia|].
      eapply Forall_impl; [|exact Hall]. unfold key_le. intros; lia.
    + constructor; [exact IH|].
      apply Forall_forall. intros a Ha. apply sort_insert_In in Ha.
      destruct Ha as [->|Ha]; [unfold key_le; lia|].
      rewrite Forall_forall in Hall. auto.
Qed.

Lemma sort_sorted l : StronglySorted key_le (sort byKey l).
Proof.
  induction l as [|x l IH]; simpl; [constructor|].
  apply sort_insert_sorted. exact IH.
Qed.

(** Sorting leaves a list that is in order as it is. *)
Lemma sort_of_sorted l : StronglySorted key_le l -> sort byKey l = l.
Proof.
  induction 1 as [|x l Hs IH Hall]; simpl; [reflexivity|].
  rewrite IH. destruct l as [|y l]; simpl; [reflexivity|].
  inversion Hall as [|? ? Hxy _]; subst. unfold key_le in Hxy.
  unfold byKey. destruct (Z.leb_spec (key x - key y) 0); [reflexivity | lia].
Qed.

End SortFacts.

(** X7.  Every stored task that the resolver shows on a date is among
    the tasks that [getTasksByDate] returns for it, provided its id lies
    in the key range that the lookup scans. *)
Theorem X7_shown_tasks_are_returned `{R : JsRuntime}
        (store : Db.Store) (d : string) (t : Task.t) :
  Db.store_ok store ->
  In t store ->
  Db.in_bound EmptyString Db.uFFFF (Task.id t) = true ->
  Page.shouldTaskAppearOnDate t d = true ->
  In t (Db.getTasksByDate store d).
Proof.
  intros Hok Hin Hb Hshow.
  apply getTasksByDate_In; [exact Hok|]. split; [exact Hin|].
  unfold Page.shouldTaskAppearOnDate in Hshow.
  destruct (Task.isAdHoc t).
  - left. apply String.eqb_eq. exact Hshow.
  - destruct (truthy (Task.startDate t) && truthy (Task.endDate t)) eqn:Ht.
    + right. split; [exact Hb|]. unfold inDateRange. rewrite Ht. exact Hshow.
    + left. apply String.eqb_eq. exact Hshow.
Qed.

Lemma X7_witness :
  Db.store_ok store4
  /\ Page.shouldTaskAppearOnDate (R := es_runtime) taskA "2024-01-04" = true
  /\ In taskA (Db.getTasksByDate (R := es_runtime) store4 "2024-01-04").
Proof.
  pose proof (store_sorted_ok store4 store4_sorted) as Hok.
  split; [exact Hok|]. split; [reflexivity|].
  apply (X7_shown_tasks_are_returned (R := es_runtime) store4 "2024-01-04" taskA Hok).
  - left. reflexivity.
  - reflexivity.
  - reflexivity.
Defined.

(** X8.  The list that [getTasksByDate] returns is in ascending order
    of the [order] field, and holds records of the store only. *)
Theorem X8_getTasksByDate_sorted `{R : JsRuntime} (store : Db.Store) (d : string) :
  StronglySorted (fun a b => Task.order a <= Task.order b)
                 (Db.getTasksByDate store d)
  /\ forall t, In t (Db.getTasksByDate store d) -> In t store.
Proof.
  split.
  - unfold Db.getTasksByDate. apply (sort_sorted Task.order).
  - intros t. rewrite getTasksByDate_unfold. intros Hin.
    apply (Permutation_in _ (sort_perm _ _)) in Hin.
    apply in_app_or in Hin as [Hin | Hin].
    + apply filter_In in Hin. tauto.
    + apply filter_In in Hin as [Hin _]. apply filter_In in Hin. tauto.
Qed.

Section RangeLookup.
Context `{R : JsRuntime}.

Lemma getTasksByDateRange_Some store startDate endDate :
  String.ltb endDate startDate = false ->
  Db.getTasksByDateRange store startDate endDate
  = Some
      (filter (fun t => Db.in_bound startDate endDate (Task.date t))
         (sort (fun a b => match String.compare (Task.date a) (Task.date b) with
                           | Lt => -1 | Eq => 0 | Gt => 1
                           end) store)
       ++ filter
            (fun t =>
               truthy (Task.startDate t) && truthy (Task.endDate t)
               && negb (has (rev (map Task.id
                          (filter (fun t => Db.in_bound startDate endDate (Task.date t))
                             (sort (fun a b =>
                                      match String.compare (Task.date a) (Task.date b) with
                                      | Lt => -1 | Eq => 0 | Gt => 1
                                      end) store)))) (Task.id t))
               && overlapsRange startDate endDate t) store).
Proof.
  intros H. unfold Db.getTasksByDateRange. rewrite H.
  rewrite fold_dateStep, fold_overlapStep. simpl. rewrite app_nil_r. reflexivity.
Qed.

Lemma getTasksByDateRange_In store startDate endDate result t :
  Db.store_ok store ->
  Db.getTasksByDateRange store startDate endDate = Some result ->
  In t result
  <-> In t store
      /\ (Db.in_bound startDate endDate (Task.date t) = true
          \/ (truthy (Task.startDate t) && truthy (Task.endDate t) = true
              /\ overlapsRange startDate endDate t = true)).
Proof.
  intros Hok Hres.
  destruct (String.ltb endDate startDate) eqn:Hlt;
    [unfold Db.getTasksByDateRange in Hres; rewrite Hlt in Hres; discriminate|].
  rewrite (getTasksByDateRange_Some _ _ _ Hlt) in Hres.
  injection Hres as <-.
  rewrite in_app_iff, !filter_In. split.
  - intros [[Hin Hb] | [Hin E]].
    + apply (Permutation_in _ (sort_perm _ _)) in Hin. tauto.
    + apply andb_true_iff in E as [E Ho]. apply andb_true_iff in E as [E _].
      tauto.
  - intros [Hin Hc].
    destruct (Db.in_bound startDate endDate (Task.date t)) eqn:Hb.
    + left. split; [|reflexivity].
      apply (Permutation_in _ (Permutation_sym (sort_perm _ _))). exact Hin.
    + right. destruct Hc as [Hc | [Ht Ho]]; [discriminate|].
      split; [exact Hin|]. rewrite Ht, Ho, andb_true_r. simpl.
      apply negb_true_iff. destruct (has _ _) eqn:Hh; [|reflexivity]. exfalso.
      apply has_In in Hh. apply in_rev in Hh.
      apply in_map_iff in Hh as (t' & Eid & Hin').
      apply filter_In in Hin' as [Hs' Hb'].
      apply (Permutation_in _ (sort_perm _ _)) in Hs'.
      assert (t' = t) by (eapply NoDup_map_injective_on; eauto).
      subst t'. congruence.
Qed.

End RangeLookup.



(** X10.  A range lookup covers the date lookups inside the range: for
    a date that lies in the range both as a key and as a time value,
    every task that [getTasksByDate] returns is among the tasks that
    [getTasksByDateRange] returns. *)
Theorem X10_range_covers_date `{R : JsRuntime}
        (store : Db.Store) (startDate endDate d : string)
        (result : list Task.t) (t : Task.t) :
  Db.store_ok store ->
  Db.getTasksByDateRange store startDate endDate = Some result ->
  Db.in_bound startDate endDate d = true ->
  num_leb (Date_parse startDate) (Date_parse d) = true ->
  num_leb (Date_parse d) (Date_parse endDate) = true ->
  In t (Db.getTasksByDate store d) ->
  In t result.
Proof.
  intros Hok Hres Hb Hsd Hde Hin.
  apply (getTasksByDateRange_In store startDate endDate result t Hok Hres).
  apply (getTasksByDate_In store d t Hok) in Hin as [Hin Hc].
  split; [exact Hin|].
  destruct Hc as [<- | [_ Hr]]; [left; exact Hb|]. right.
  unfold inDateRange in Hr. apply andb_true_iff in Hr as [Ht Hr].
  split; [exact Ht|].
  apply andb_true_iff in Hr as [H1 H2].
  unfold overlapsRange. simpl in *.
  destruct (Date_parse startDate) as [rs|]; [|discriminate].
  destruct (Date_parse d) as [cur|]; [|discriminate].
  destruct (Date_parse endDate) as [re|]; [|destruct cur; discriminate].
  destruct (Date_getTime (Task.startDate t)) as [ts|]; [|discriminate].
  destruct (Date_getTime (Task.endDate t)) as [te|]; [|discriminate].
  unfold num_geb, num_leb in *.
  rewrite !orb_true_iff, !andb_true_iff, !Z.leb_le.
  apply Z.leb_le in Hsd, Hde, H1, H2. lia.
Qed.

Lemma X10_witness :
  Db.store_ok store4
  /\ In taskAdHoc (Db.getTasksByDate (R := es_runtime) store4 "2024-01-03")
  /\ exists result,
       Db.getTasksByDateRange (R := es_runtime) store4 "2024-01-01" "2024-01-07"
       = Some result
       /\ In taskAdHoc result.
Proof.
  pose proof (store_sorted_ok store4 store4_sorted) as Hok.
  assert (Hin : In taskAdHoc (Db.getTasksByDate (R := es_runtime) store4 "2024-01-03"))
    by (right; left; reflexivity).
  split; [exact Hok|]. split; [exact Hin|].
  eexists. split; [reflexivity|].
  eapply (X10_range_covers_date (R := es_runtime) store4 "2024-01-01" "2024-01-07"
            "2024-01-03" _ taskAdHoc Hok eq_refl eq_refl eq_refl eq_refl Hin).
Defined.

(* ================================================================== *)
(** * Defaults and visibility *)

Lemma digit_inj a b n : digit a = Some n -> digit b = Some n -> a = b.
Proof.
  unfold digit.
  destruct ((48 <=? Z.of_N (N_of_ascii a)) && (Z.of_N (N_of_ascii a) <=? 57));
    [|discriminate].
  destruct ((48 <=? Z.of_N (N_of_ascii b)) && (Z.of_N (N_of_ascii b) <=? 57));
    [|discriminate].
  intros Ha Hb.
  assert (E : N_of_ascii a = N_of_ascii b).
  { apply N2Z.inj. assert (Z.of_N (N_of_ascii a) - 48 = n) by congruence.
    assert (Z.of_N (N_of_ascii b) - 48 = n) by congruence. lia. }
  rewrite <- (ascii_N_embedding a), <- (ascii_N_embedding b), E. reflexivity.
Qed.

Lemma two_digits_inj a b a' b' n :
  two_digits a b = Some n -> two_digits a' b' = Some n -> a = a' /\ b = b'.
Proof.
  intros H H'.
  apply two_digits_inv in H as (x & y & Hx & Hy & E).
  apply two_digits_inv in H' as (x' & y' & Hx' & Hy' & E').
  pose proof (digit_range _ _ Hx). pose proof (digit_range _ _ Hy).
  pose proof (digit_range _ _ Hx'). pose proof (digit_range _ _ Hy').
  assert (x = x') by lia. assert (y = y') by lia. subst x' y'.
  split; eapply digit_inj; eauto.
Qed.

Lemma four_digits_inj a b c d a' b' c' d' n :
  four_digits a b c d = Some n -> four_digits a' b' c' d' = Some n ->
  a = a' /\ b = b' /\ c = c' /\ d = d'.
Proof.
  unfold four_digits.
  destruct (two_digits a b) as [x|] eqn:E1; [|discriminate].
  destruct (two_digits c d) as [y|] eqn:E2; [|discriminate].
  destruct (two_digits a' b') as [x'|] eqn:E1'; [|discriminate].
  destruct (two_digits c' d') as [y'|] eqn:E2'; [|discriminate].
  intros H H'.
  pose proof (two_digits_range _ _ _ E1). pose proof (two_digits_range _ _ _ E2).
  pose proof (two_digits_range _ _ _ E1'). pose proof (two_digits_range _ _ _ E2').
  assert (n = 100 * x + y) by congruence.
  assert (n = 100 * x' + y') by congruence.
  assert (x = x') by lia. assert (y = y') by lia. subst x' y'.
  destruct (two_digits_inj _ _ _ _ _ E1 E1').
  destruct (two_digits_inj _ _ _ _ _ E2 E2'). auto.
Qed.

(** A calendar date has one spelling. *)
Lemma parseDateOnly_inj s s' c :
  parseDateOnly s = Some c -> parseDateOnly s' = Some c -> s = s'.
Proof.
  unfold parseDateOnly.
  destruct s as [|y1 [|y2 [|y3 [|y4 [|h1 [|m1 [|m2 [|h2 [|d1 [|d2 [|]]]]]]]]]]];
    try discriminate.
  destruct s' as [|z1 [|z2 [|z3 [|z4 [|k1 [|n1 [|n2 [|k2 [|e1 [|e2 [|]]]]]]]]]]];
    try discriminate.
  destruct (Ascii.eqb_spec h1 "-"); [|discriminate].
  destruct (Ascii.eqb_spec h2 "-"); [|discriminate].
  destruct (Ascii.eqb_spec k1 "-"); [|discriminate].
  destruct (Ascii.eqb_spec k2 "-"); [|discriminate].
  cbn [andb].
  destruct (four_digits y1 y2 y3 y4) as [y|] eqn:Ey; [|discriminate].
  destruct (two_digits m1 m2) as [m|] eqn:Em; [|discriminate].
  destruct (two_digits d1 d2) as [d|] eqn:Ed; [|discriminate].
  destruct (valid_date (y, m, d)); [|discriminate].
  intros H.
  destruct (four_digits z1 z2 z3 z4) as [y'|] eqn:Ey'; [|discriminate].
  destruct (two_digits n1 n2) as [m'|] eqn:Em'; [|discriminate].
  destruct (two_digits e1 e2) as [d'|] eqn:Ed'; [|discriminate].
  destruct (valid_date (y', m', d')); [|discriminate].
  intros H'. assert (E : (y, m, d) = (y', m', d')) by congruence.
  injection E as <- <- <-.
  destruct (four_digits_inj _ _ _ _ _ _ _ _ _ Ey Ey') as (-> & -> & -> & ->).
  destruct (two_digits_inj _ _ _ _ _ Em Em') as (-> & ->).
  destruct (two_digits_inj _ _ _ _ _ Ed Ed') as (-> & ->).
  subst. reflexivity.
Qed.

Lemma cal_le_antisym a b : cal_le a b -> cal_le b a -> a = b.
Proof.
  destruct a as [[y1 m1] d1], b as [[y2 m2] d2]. unfold cal_le.
  intros H1 H2. assert (y1 = y2) by lia. assert (m1 = m2) by lia.
  assert (d1 = d2) by lia. subst. reflexivity.
Qed.

Lemma cal_le_refl a : cal_le a a.
Proof. destruct a as [[y m] d]. unfold cal_le. lia. Qed.

Lemma date_or_truthy v d : truthy v = true -> Db.date_or v d = v.
Proof. intros H. unfold Db.date_or. rewrite H. reflexivity. Qed.

Lemma date_or_falsy v d :
  truthy v = false -> truthy (Some d) = true -> Db.date_or v d = Some d.
Proof. intros H H'. unfold Db.date_or. rewrite H, H'. reflexivity. Qed.

(** X11.  What the defaults that [getAllTasks] fills in do to the
    visibility of a record whose [date] is a well-formed date, on a
    well-formed date string: an ad-hoc task, a task with both
    [startDate] and [endDate], and a task with neither appear on the same
    dates as before; a task with a well-formed [startDate] and no
    [endDate] now appears from its startDate to its date. *)
Theorem X11_defaults_and_visibility `{R : JsRuntime}
        (task : Task.t) (d : string) (c cd : CalDate) :
  parseDateOnly d = Some c ->
  parseDateOnly (Task.date task) = Some cd ->
  (Task.isAdHoc task = true
   \/ truthy (Task.startDate task) && truthy (Task.endDate task) = true
   \/ truthy (Task.startDate task) || truthy (Task.endDate task) = false ->
   Page.shouldTaskAppearOnDate (Db.withDefaults task) d
   = Page.shouldTaskAppearOnDate task d)
  /\ (forall sd cs,
         Task.isAdHoc task = false ->
         Task.startDate task = Some sd -> parseDateOnly sd = Some cs ->
         truthy (Task.endDate task) = false ->
         (Page.shouldTaskAppearOnDate (Db.withDefaults task) d = true
          <-> cal_le cs c /\ cal_le c cd)).
Proof.
  intros Hd Hdate.
  pose proof (parseDateOnly_truthy _ _ Hdate) as Htd.
  split.
  - intros [Ha | [Hboth | Hnone]].
    + rewrite !shouldTaskAppearOnDate_adhoc by exact Ha. reflexivity.
    + apply andb_true_iff in Hboth as [Hs He].
      unfold Db.withDefaults, Page.shouldTaskAppearOnDate. simpl.
      rewrite (date_or_truthy _ _ Hs), (date_or_truthy _ _ He). reflexivity.
    + apply orb_false_iff in Hnone as [Hs He].
      destruct (Task.isAdHoc task) eqn:Ha.
      { rewrite !shouldTaskAppearOnDate_adhoc by exact Ha. reflexivity. }
      rewrite (shouldTaskAppearOnDate_fallback task d Ha)
        by (rewrite Hs; reflexivity).
      rewrite shouldTaskAppearOnDate_range; [|exact Ha|].
      2: { simpl. rewrite (date_or_falsy _ _ Hs Htd), (date_or_falsy _ _ He Htd).
           rewrite Htd. reflexivity. }
      simpl. rewrite (date_or_falsy _ _ Hs Htd), (date_or_falsy _ _ He Htd). simpl.
      destruct (String.eqb_spec (Task.date task) d) as [E | NE].
      * rewrite E.
        rewrite (proj2 (Date_parse_le_iff d d c c Hd Hd) (cal_le_refl c)).
        reflexivity.
      * apply not_true_is_false. intros H. apply andb_true_iff in H as [H1 H2].
        apply (Date_parse_le_iff _ _ _ _ Hdate Hd) in H1.
        apply (Date_parse_le_iff _ _ _ _ Hd Hdate) in H2.
        pose proof (cal_le_antisym _ _ H1 H2). subst cd.
        apply NE. eapply parseDateOnly_inj; eauto.
  - intros sd cs Ha Hsd Hcs He.
    pose proof (parseDateOnly_truthy _ _ Hcs) as Hts.
    rewrite shouldTaskAppearOnDate_range; [|exact Ha|].
    2: { simpl. rewrite Hsd, (date_or_truthy _ _ Hts), (date_or_falsy _ _ He Htd).
         rewrite Hts, Htd. reflexivity. }
    simpl. rewrite Hsd, (date_or_truthy _ _ Hts), (date_or_falsy _ _ He Htd).
    simpl. rewrite andb_true_iff.
    rewrite (Date_parse_le_iff _ _ _ _ Hcs Hd), (Date_parse_le_iff _ _ _ _ Hd Hdate).
    reflexivity.
Qed.

Lemma X11_witness :
  parseDateOnly "2023-12-31" = Some (2023, 12, 31)
  /\ Page.shouldTaskAppearOnDate (R := es_runtime) (Db.withDefaults taskLegacy)
       "2023-12-31"
     = Page.shouldTaskAppearOnDate (R := es_runtime) taskLegacy "2023-12-31".
Proof.
  split; [reflexivity|].
  apply (proj1 (X11_defaults_and_visibility (R := es_runtime) taskLegacy
                  "2023-12-31" (2023, 12, 31) (2023, 12, 31) eq_refl eq_refl)).
  right. right. reflexivity.
Defined.

(* ================================================================== *)
(** * The day view and the month grid *)


Section ViewFacts.
Context `{R : JsRuntime}.







End ViewFacts.



(* ================================================================== *)
(** * The two task lists of the day view *)

Lemma filter_partition_perm {A : Type} (p : A -> bool) l :
  Permutation (filter (fun x => negb (p x)) l ++ filter p l) l.
Proof.
  induction l as [|x l IH]; simpl; [constructor|].
  destruct (p x); simpl.
  - rewrite <- Permutation_middle. constructor. exact IH.
  - constructor. exact IH.
Qed.

(** X13.  The memo splits the tasks of the day in two: the incomplete
    tasks, in ascending [order], and the completed ones; between them
    they hold every task of the day once. *)
Theorem X13_memo_lists `{R : JsRuntime} (tasks : list Task.t) :
  Permutation (Page.incompleteTasks tasks ++ Page.completedTasks tasks) tasks
  /\ Forall (fun t => Task.completed t = false) (Page.incompleteTasks tasks)
  /\ Forall (fun t => Task.completed t = true) (Page.completedTasks tasks)
  /\ StronglySorted (fun a b => Task.order a <= Task.order b)
                    (Page.incompleteTasks tasks).
Proof.
  unfold Page.incompleteTasks, Page.completedTasks.
  split; [|split; [|split]].
  - rewrite !sort_perm. apply (filter_partition_perm Task.completed).
  - apply Forall_forall. intros t Ht.
    apply (Permutation_in _ (sort_perm _ _)) in Ht.
    apply filter_In in Ht as [_ Ht]. apply incomplete_completed. exact Ht.
  - apply Forall_forall. intros t Ht.
    apply (Permutation_in _ (sort_perm _ _)) in Ht.
    apply filter_In in Ht. tauto.
  - apply (sort_sorted Task.order).
Qed.

Lemma renumber_incomplete_sorted k l :
  StronglySorted (key_le Task.order) (filter Page.incomplete_ (Page.renumber k l))
  /\ Forall (fun t => k <= Task.order t)
            (filter Page.incomplete_ (Page.renumber k l)).
Proof.
  revert k. induction l as [|t l IH]; intros k; [split; constructor|].
  cbn [Page.renumber filter].
  destruct (Task.completed t) eqn:E; cbn [negb filter].
  - replace (Page.incomplete_ t) with false
      by (unfold Page.incomplete_; rewrite E; reflexivity).
    apply IH.
  - replace (Page.incomplete_ (Task.with_order k t)) with true
      by (unfold Page.incomplete_; simpl; rewrite E; reflexivity).
    destruct (IH (k + 1)) as [Hs Hall].
    assert (Hall' : Forall (fun t' => k <= Task.order t')
                      (filter Page.incomplete_ (Page.renumber (k + 1) l))).
    { eapply Forall_impl; [|exact Hall]. simpl. intros; lia. }
    split.
    + constructor; [exact Hs|]. exact Hall'.
    + constructor; [simpl; lia | exact Hall'].
Qed.

(** [moveTask] with the index of the hover task made explicit. *)
Lemma moveTask_resolved_at dragIndex hoverIndex prevTasks td th :
  NoDup (map Task.id prevTasks) ->
  nth_error (filter Page.incomplete_ prevTasks) dragIndex = Some td ->
  nth_error (filter Page.incomplete_ prevTasks) hoverIndex = Some th ->
  Task.id td <> EmptyString -> Task.id th <> EmptyString ->
  exists j l1 l2,
    prevTasks = l1 ++ td :: l2
    /\ nth_error prevTasks j = Some th
    /\ Page.moveTask dragIndex hoverIndex prevTasks
       = (Page.renumber 0 (splice_insert j td (l1 ++ l2)),
          Some (filter Page.incomplete_
                  (Page.renumber 0 (splice_insert j td (l1 ++ l2))))).
Proof.
  intros Hnd Hd Hh Hid Hih.
  assert (Hind : In td prevTasks)
    by (apply nth_error_In in Hd; apply filter_In in Hd; tauto).
  assert (Hinh : In th prevTasks)
    by (apply nth_error_In in Hh; apply filter_In in Hh; tauto).
  destruct (findIndex_In (fun t => (Task.id t =? Task.id td)%string)
              prevTasks td Hind (String.eqb_refl _)) as [i Hi].
  destruct (findIndex_In (fun t => (Task.id t =? Task.id th)%string)
              prevTasks th Hinh (String.eqb_refl _)) as [j Hj].
  destruct (findIndex_Some _ _ _ Hi) as (x & Hx & Ex).
  destruct (findIndex_Some _ _ _ Hj) as (y & Hy & Ey).
  apply String.eqb_eq in Ex, Ey.
  assert (x = td)
    by (eapply NoDup_map_injective_on; eauto; eapply nth_error_In; eauto).
  assert (y = th)
    by (eapply NoDup_map_injective_on; eauto; eapply nth_error_In; eauto).
  subst x y.
  destruct (nth_error_split _ _ Hx) as (l1 & l2 & Hsplit & Hlen).
  exists j, l1, l2. split; [exact Hsplit|]. split; [exact Hy|].
  unfold Page.moveTask. cbv zeta. rewrite Hd, Hh. cbn [option_map truthy].
  apply String.eqb_neq in Hid, Hih. rewrite Hid, Hih. cbn [negb orb].
  rewrite Hi, Hj, Hx. cbv beta iota.
  subst i. rewrite Hsplit, splice_remove_split. reflexivity.
Qed.

Lemma nth_error_splice_insert {A : Type} j (x : A) l :
  (j <= List.length l)%nat -> nth_error (splice_insert j x l) j = Some x.
Proof.
  intros Hj. unfold splice_insert.
  rewrite nth_error_app2; rewrite List.length_firstn, Nat.min_l by exact Hj;
    [|apply Nat.le_refl].
  rewrite Nat.sub_diag. reflexivity.
Qed.

Lemma moveTask_indices dragIndex hoverIndex prevTasks :
  (forall t, In t prevTasks -> Task.id t <> EmptyString) ->
  (dragIndex < List.length (filter Page.incomplete_ prevTasks))%nat ->
  (hoverIndex < List.length (filter Page.incomplete_ prevTasks))%nat ->
  exists td th,
    nth_error (filter Page.incomplete_ prevTasks) dragIndex = Some td
    /\ nth_error (filter Page.incomplete_ prevTasks) hoverIndex = Some th
    /\ Page.incomplete_ td = true
    /\ Task.id td <> EmptyString /\ Task.id th <> EmptyString.
Proof.
  intros Hids Hd Hh.
  destruct (nth_error (filter Page.incomplete_ prevTasks) dragIndex) as [td|] eqn:Ed;
    [|apply nth_error_None in Ed; lia].
  destruct (nth_error (filter Page.incomplete_ prevTasks) hoverIndex) as [th|] eqn:Eh;
    [|apply nth_error_None in Eh; lia].
  exists td, th. split; [reflexivity|]. split; [reflexivity|].
  pose proof (nth_error_In _ _ Ed) as Hind. apply filter_In in Hind as [Hind Hinc].
  pose proof (nth_error_In _ _ Eh) as Hinh. apply filter_In in Hinh as [Hinh _].
  split; [exact Hinc|]. split; auto.
Qed.

(** X14.  After [moveTask] the memo's list of incomplete tasks is the
    incomplete tasks of the new state in the order of that state, so the
    index that a card is rendered with is its index among the incomplete
    tasks of the state. *)
Theorem X14_display_order_after_moveTask
        (dragIndex hoverIndex : nat) (prevTasks : list Task.t) :
  NoDup (map Task.id prevTasks) ->
  (forall t, In t prevTasks -> Task.id t <> EmptyString) ->
  (dragIndex < List.length (filter Page.incomplete_ prevTasks))%nat ->
  (hoverIndex < List.length (filter Page.incomplete_ prevTasks))%nat ->
  Page.incompleteTasks (fst (Page.moveTask dragIndex hoverIndex prevTasks))
  = filter Page.incomplete_ (fst (Page.moveTask dragIndex hoverIndex prevTasks)).
Proof.
  intros Hnd Hids Hd Hh.
  destruct (moveTask_indices _ _ _ Hids Hd Hh) as (td & th & Ed & Eh & _ & Hid & Hih).
  destruct (moveTask_resolved dragIndex hoverIndex prevTasks td th Hnd Ed Eh Hid Hih)
    as (j & l1 & l2 & _ & Hmove).
  rewrite Hmove. cbn [fst]. unfold Page.incompleteTasks.
  apply (sort_of_sorted Task.order). apply renumber_incomplete_sorted.
Qed.

Lemma X14_witness :
  Page.incompleteTasks (fst (Page.moveTask 0 1 threeTasks))
  = filter Page.incomplete_ (fst (Page.moveTask 0 1 threeTasks))
  /\ map Task.title (Page.incompleteTasks (fst (Page.moveTask 0 1 threeTasks)))
     = ["third"; "first"].
Proof.
  split; [|reflexivity].
  apply (X14_display_order_after_moveTask 0 1 threeTasks threeTasks_ids
           threeTasks_nonempty); simpl; lia.
Defined.

(** X15.  An index that resolves to no incomplete task makes
    [moveTask] a no-op: the state is returned as it is and nothing is
    handed to the store. *)
Theorem X15_moveTask_stale_index
        (dragIndex hoverIndex : nat) (prevTasks : list Task.t) :
  (List.length (filter Page.incomplete_ prevTasks) <= dragIndex)%nat
  \/ (List.length (filter Page.incomplete_ prevTasks) <= hoverIndex)%nat ->
  Page.moveTask dragIndex hoverIndex prevTasks = (prevTasks, None).
Proof.
  intros H. unfold Page.moveTask. cbv zeta.
  destruct H as [H | H]; apply nth_error_None in H; rewrite H; simpl.
  - reflexivity.
  - rewrite orb_true_r. reflexivity.
Qed.

Lemma X15_witness :
  (List.length (filter Page.incomplete_ threeTasks) <= 2)%nat
  /\ Page.moveTask 2 0 threeTasks = (threeTasks, None).
Proof.
  split; [simpl; lia|].
  apply X15_moveTask_stale_index. left. simpl. lia.
Defined.

(** X16.  [moveTask] puts the dragged task at the place in the list
    where the hover task stood, and keeps the other tasks in their
    relative order; dragging a task onto itself leaves the list in the
    order it had. *)
Theorem X16_moveTask_position
        (dragIndex hoverIndex : nat) (prevTasks : list Task.t) (td th : Task.t) :
  NoDup (map Task.id prevTasks) ->
  nth_error (filter Page.incomplete_ prevTasks) dragIndex = Some td ->
  nth_error (filter Page.incomplete_ prevTasks) hoverIndex = Some th ->
  Task.id td <> EmptyString -> Task.id th <> EmptyString ->
  (exists j,
      nth_error prevTasks j = Some th
      /\ nth_error (map Task.id (fst (Page.moveTask dragIndex hoverIndex prevTasks))) j
         = Some (Task.id td))
  /\ filter (fun i => negb (i =? Task.id td)%string)
       (map Task.id (fst (Page.moveTask dragIndex hoverIndex prevTasks)))
     = filter (fun i => negb (i =? Task.id td)%string) (map Task.id prevTasks)
  /\ (dragIndex = hoverIndex ->
      map Task.id (fst (Page.moveTask dragIndex hoverIndex prevTasks))
      = map Task.id prevTasks).
Proof.
  intros Hnd Ed Eh Hid Hih.
  destruct (moveTask_resolved_at dragIndex hoverIndex prevTasks td th Hnd Ed Eh Hid Hih)
    as (j & l1 & l2 & Hsplit & Hj & Hmove).
  rewrite Hmove. cbn [fst]. rewrite renumber_ids.
  assert (Hlen : (j <= List.length (l1 ++ l2))%nat).
  { assert (j < List.length prevTasks)%nat
      by (apply nth_error_Some; rewrite Hj; discriminate).
    rewrite Hsplit in H. rewrite List.length_app in *. simpl in H. lia. }
  split; [|split].
  - exists j. split; [exact Hj|].
    rewrite nth_error_map, (nth_error_splice_insert j td _ Hlen). reflexivity.
  - unfold splice_insert. rewrite Hsplit, !map_app, !filter_app. simpl.
    rewrite !String.eqb_refl. simpl.
    rewrite <- filter_app, <- map_app, firstn_skipn, map_app, filter_app.
    reflexivity.
  - intros ->. assert (td = th) by congruence. subst th.
    assert (j = List.length l1).
    { rewrite Hsplit in Hj, Hnd.
      destruct (Nat.lt_trichotomy j (List.length l1)) as [L | [E | G]]; [|exact E|].
      - exfalso. rewrite nth_error_app1 in Hj by exact L.
        apply nth_error_In in Hj.
        rewrite map_app in Hnd. simpl in Hnd.
        apply NoDup_remove_2 in Hnd. apply Hnd.
        apply in_or_app. left. apply in_map. exact Hj.
      - exfalso. rewrite nth_error_app2 in Hj by lia.
        destruct (j - List.length l1)%nat as [|n] eqn:En; [lia|].
        simpl in Hj. apply nth_error_In in Hj.
        rewrite map_app in Hnd. simpl in Hnd.
        apply NoDup_remove_2 in Hnd. apply Hnd.
        apply in_or_app. right. apply in_map. exact Hj. }
    subst j. rewrite Hsplit. unfold splice_insert.
    rewrite firstn_app, Nat.sub_diag, firstn_all, skipn_app, Nat.sub_diag, skipn_all.
    simpl. rewrite app_nil_r. reflexivity.
Qed.

Lemma X16_witness :
  NoDup (map Task.id threeTasks)
  /\ map Task.title (fst (Page.moveTask 1 0 threeTasks))
     = ["third"; "first"; "second"]
  /\ exists j,
       nth_error threeTasks j = Some (nth 0 threeTasks taskA)
       /\ nth_error (map Task.id (fst (Page.moveTask 1 0 threeTasks))) j
          = Some (Task.id (nth 2 threeTasks taskA)).
Proof.
  split; [exact threeTasks_ids|]. split; [reflexivity|].
  apply (proj1 (X16_moveTask_position 1 0 threeTasks
                  (nth 2 threeTasks taskA) (nth 0 threeTasks taskA)
                  threeTasks_ids eq_refl eq_refl
                  (threeTasks_nonempty _ (or_intror (or_intror (or_introl eq_refl))))
                  (threeTasks_nonempty _ (or_introl eq_refl)))).
Defined.

(* ================================================================== *)
(** * Work logs *)

Section LogFacts.
Context `{R : JsRuntime}.


(** [handleAddLog] once the duration check has passed. *)
Lemma handleAddLog_positive validate now today st a b :
  minutesOf (TaskCard.startTime (TaskCard.newLog st)) = Some a ->
  minutesOf (TaskCard.endTime (TaskCard.newLog st)) = Some b ->
  a < b ->
  TaskCard.handleAddLog validate now today st
  = if TaskCard.isTimeRangeOverlap validate (TaskCard.localTask st)
         (TaskCard.startTime (TaskCard.newLog st))
         (TaskCard.endTime (TaskCard.newLog st))
         (TaskCard.date (TaskCard.newLog st))
    then (st, [TaskCard.Alert TaskCard.msgOverlap])
    else
      let log := TaskLog.mk now (TaskCard.date (TaskCard.newLog st))
                   (TaskCard.startTime (TaskCard.newLog st))
                   (TaskCard.endTime (TaskCard.newLog st)) (Num (b - a)) in
      let updatedLogs := logs_or_empty (Task.logs (TaskCard.localTask st)) ++ [log] in
      let updatedTask :=
        Task.with_logs updatedLogs (sumDurations updatedLogs) (TaskCard.localTask st) in
      (TaskCard.mkState updatedTask
         (TaskCard.mkNewLog today "09:00" "10:00" (Num 60)) false,
       [TaskCard.OnUpdate updatedTask]).
Proof.
  intros Ha Hb Hlt. unfold TaskCard.handleAddLog. cbv zeta.
  rewrite (minutesOf_truthy _ _ Ha), (minutesOf_truthy _ _ Hb). cbn [negb orb].
  rewrite (calculateDuration_minutes _ _ _ _ Ha Hb).
  cbn [num_leb]. destruct (Z.leb_spec (b - a) 0); [lia|].
  rewrite reduceDuration_sum. reflexivity.
Qed.

End LogFacts.

(** X17.  For a proposed log with well-formed times and the start
    before the end, [handleAddLog] has two outcomes.  If the validator
    answers true on the comparison set, the state is unchanged and the
    overlap alert is shown.  Otherwise, and always when the card has no
    validator, a log with the generated id and the duration end - start
    is appended, totalDuration is the new sum, the form is reset to
    09:00-10:00 of today and closed, and [onUpdate] gets the new task. *)
Theorem X17_handleAddLog_outcomes `{R : JsRuntime}
        (validate : option TaskCard.Validator) (now today : string)
        (st : TaskCard.State) (a b : Z) :
  minutesOf (TaskCard.startTime (TaskCard.newLog st)) = Some a ->
  minutesOf (TaskCard.endTime (TaskCard.newLog st)) = Some b ->
  a < b ->
  let nl := TaskCard.newLog st in
  let log := TaskLog.mk now (TaskCard.date nl) (TaskCard.startTime nl)
               (TaskCard.endTime nl) (Num (b - a)) in
  let updatedLogs := logs_or_empty (Task.logs (TaskCard.localTask st)) ++ [log] in
  let updatedTask :=
    Task.with_logs updatedLogs (sumDurations updatedLogs) (TaskCard.localTask st) in
  let accepted :=
    (TaskCard.mkState updatedTask
       (TaskCard.mkNewLog today "09:00" "10:00" (Num 60)) false,
     [TaskCard.OnUpdate updatedTask]) in
  (forall v,
      validate = Some v ->
      v (TaskCard.startTime nl) (TaskCard.endTime nl)
        (TaskCard.otherLogs (Task.logs (TaskCard.localTask st))
           (TaskCard.startTime nl) (TaskCard.endTime nl) (TaskCard.date nl)) = true ->
      TaskCard.handleAddLog validate now today st
      = (st, [TaskCard.Alert TaskCard.msgOverlap]))
  /\ (forall v,
         validate = Some v ->
         v (TaskCard.startTime nl) (TaskCard.endTime nl)
           (TaskCard.otherLogs (Task.logs (TaskCard.localTask st))
              (TaskCard.startTime nl) (TaskCard.endTime nl) (TaskCard.date nl)) = false ->
         TaskCard.handleAddLog validate now today st = accepted)
  /\ (validate = None -> TaskCard.handleAddLog validate now today st = accepted).
Proof.
  intros Ha Hb Hlt. cbv zeta.
  rewrite (handleAddLog_positive validate now today st a b Ha Hb Hlt).
  split; [|split].
  - intros v -> Hv. unfold TaskCard.isTimeRangeOverlap. rewrite Hv. reflexivity.
  - intros v -> Hv. unfold TaskCard.isTimeRangeOverlap. rewrite Hv. reflexivity.
  - intros ->. reflexivity.
Qed.

(** Without a validator the card accepts 10:00-11:00 next to
    09:30-10:30. *)
Lemma X17_witness :
  minutesOf "10:00" = Some 600 /\ minutesOf "11:00" = Some 660 /\ 600 < 660
  /\ snd (TaskCard.handleAddLog (R := es_runtime) None "1704067200200"
            "2024-01-02" (cardWith [log_0930_1030] "10:00" "11:00"))
     = [TaskCard.OnUpdate
          (Task.with_logs
             [log_0930_1030;
              TaskLog.mk "1704067200200" "2024-01-01" "10:00" "11:00" (Num 60)]
             (Num 120)
             (TaskCard.localTask (cardWith [log_0930_1030] "10:00" "11:00")))].
Proof.
  split; [reflexivity|]. split; [reflexivity|]. split; [lia|].
  rewrite (proj2 (proj2 (X17_handleAddLog_outcomes (R := es_runtime) None
                           "1704067200200" "2024-01-02"
                           (cardWith [log_0930_1030] "10:00" "11:00") 600 660
                           eq_refl eq_refl eq_refl)) eq_refl).
  reflexivity.
Defined.








Lemma filter_filter_same {A : Type} (p : A -> bool) l :
  filter p (filter p l) = filter p l.
Proof.
  induction l as [|x l IH]; simpl; [reflexivity|].
  destruct (p x) eqn:E; simpl; [rewrite E, IH|]; auto.
Qed.

Lemma filter_all {A : Type} (p : A -> bool) l :
  (forall x, In x l -> p x = true) -> filter p l = l.
Proof.
  induction l as [|x l IH]; simpl; intros H; [reflexivity|].
  rewrite (H x (or_introl eq_refl)). f_equal. apply IH. intros y Hy. apply H. auto.
Qed.

(** X19.  [handleDeleteLog] leaves no log of the given id in the task
    and keeps every other log, in order; when no log has the id the logs
    are the same as before; deleting the same id again changes nothing;
    the form is not touched. *)
Theorem X19_handleDeleteLog_removes (logId : string) (st : TaskCard.State) :
  let old := logs_or_empty (Task.logs (TaskCard.localTask st)) in
  let st' := fst (TaskCard.handleDeleteLog logId st) in
  Task.logs (TaskCard.localTask st')
  = Some (filter (fun log => negb (TaskLog.id log =? logId)%string) old)
  /\ (forall log,
         In log (logs_or_empty (Task.logs (TaskCard.localTask st')))
         <-> In log old /\ TaskLog.id log <> logId)
  /\ ((forall log, In log old -> TaskLog.id log <> logId) ->
      Task.logs (TaskCard.localTask st') = Some old)
  /\ fst (TaskCard.handleDeleteLog logId st') = st'
  /\ TaskCard.newLog st' = TaskCard.newLog st
  /\ TaskCard.showLogForm st' = TaskCard.showLogForm st.
Proof.
  cbv zeta.
  assert (E : Task.logs (TaskCard.localTask (fst (TaskCard.handleDeleteLog logId st)))
              = Some (filter (fun log => negb (TaskLog.id log =? logId)%string)
                        (logs_or_empty (Task.logs (TaskCard.localTask st))))).
  { unfold TaskCard.handleDeleteLog. simpl.
    destruct (Task.logs (TaskCard.localTask st)); reflexivity. }
  split; [exact E|]. split; [|split; [|split; [|split]]].
  - intros log. rewrite E. simpl.
    rewrite filter_In, negb_true_iff, String.eqb_neq. reflexivity.
  - intros Hall. rewrite E. f_equal. apply filter_all.
    intros log Hin. apply negb_true_iff, String.eqb_neq. auto.
  - unfold TaskCard.handleDeleteLog at 1. rewrite E.
    unfold TaskCard.handleDeleteLog. simpl.
    destruct (Task.logs (TaskCard.localTask st)) as [l|]; simpl;
      [rewrite filter_filter_same|]; reflexivity.
  - reflexivity.
  - reflexivity.
Qed.

Lemma handleDeleteLog_task logId st :
  TaskCard.localTask (fst (TaskCard.handleDeleteLog logId st))
  = Task.with_logs
      (filter (fun log => negb (TaskLog.id log =? logId)%string)
         (logs_or_empty (Task.logs (TaskCard.localTask st))))
      (sumDurations
         (filter (fun log => negb (TaskLog.id log =? logId)%string)
            (logs_or_empty (Task.logs (TaskCard.localTask st)))))
      (TaskCard.localTask st).
Proof.
  unfold TaskCard.handleDeleteLog. cbn [fst TaskCard.localTask].
  rewrite reduceDuration_sum.
  destruct (Task.logs (TaskCard.localTask st)); reflexivity.
Qed.

(** X20.  Deleting the log that [handleAddLog] has just added, whose
    id no earlier log carries, gives back the logs and the total of
    before; a task that had its logs and a totalDuration equal to their
    sum is given back whole. *)
Theorem X20_add_then_delete_log `{R : JsRuntime}
        (validate : option TaskCard.Validator) (now today : string)
        (st : TaskCard.State) (task' : Task.t) :
  (forall log, In log (logs_or_empty (Task.logs (TaskCard.localTask st))) ->
               TaskLog.id log <> now) ->
  In (TaskCard.OnUpdate task')
     (snd (TaskCard.handleAddLog validate now today st)) ->
  let st2 := fst (TaskCard.handleDeleteLog now
                    (fst (TaskCard.handleAddLog validate now today st))) in
  Task.logs (TaskCard.localTask st2)
  = Some (logs_or_empty (Task.logs (TaskCard.localTask st)))
  /\ Task.totalDuration (TaskCard.localTask st2)
     = Some (sumDurations (logs_or_empty (Task.logs (TaskCard.localTask st))))
  /\ (forall l, Task.logs (TaskCard.localTask st) = Some l ->
                totalDuration_ok (TaskCard.localTask st) ->
                TaskCard.localTask st2 = TaskCard.localTask st).
Proof.
  intros Hfresh. unfold TaskCard.handleAddLog.
  destruct (negb _ || negb _); [intros []|].
  destruct (num_leb _ _); [intros [H|[]]; discriminate|].
  destruct (TaskCard.isTimeRangeOverlap _ _ _ _ _); [intros [H|[]]; discriminate|].
  intros _. cbv zeta. cbn [fst]. rewrite handleDeleteLog_task.
  cbn [TaskCard.localTask Task.with_logs Task.logs Task.totalDuration logs_or_empty].
  assert (Hf : forall log,
             TaskLog.id log = now ->
             filter (fun log => negb (TaskLog.id log =? now)%string)
               (logs_or_empty (Task.logs (TaskCard.localTask st)) ++ [log])
             = logs_or_empty (Task.logs (TaskCard.localTask st))).
  { intros log E. rewrite filter_app. simpl. rewrite E, String.eqb_refl. simpl.
    rewrite app_nil_r. apply filter_all.
    intros log' Hin. apply negb_true_iff, String.eqb_neq. auto. }
  rewrite Hf by reflexivity.
  split; [reflexivity|]. split; [reflexivity|].
  intros l Hl Hok. unfold totalDuration_ok in Hok. rewrite Hl in *.
  cbn [logs_or_empty] in *.
  destruct (TaskCard.localTask st). simpl in *. subst. reflexivity.
Qed.

Lemma log_0930_1030_other_id log :
  In log (logs_or_empty (Task.logs
            (TaskCard.localTask (cardWith [log_0930_1030] "11:00" "12:00")))) ->
  TaskLog.id log <> "1704067200200".
Proof. simpl. intros [<- | []]. discriminate. Qed.

Lemma X20_witness :
  In (TaskCard.OnUpdate
        (Task.with_logs
           [log_0930_1030;
            TaskLog.mk "1704067200200" "2024-01-01" "11:00" "12:00" (Num 60)]
           (Num 120)
           (TaskCard.localTask (cardWith [log_0930_1030] "11:00" "12:00"))))
     (snd (TaskCard.handleAddLog (R := es_runtime) None "1704067200200"
             "2024-01-02" (cardWith [log_0930_1030] "11:00" "12:00")))
  /\ Task.logs
       (TaskCard.localTask
          (fst (TaskCard.handleDeleteLog "1704067200200"
                  (fst (TaskCard.handleAddLog (R := es_runtime) None
                          "1704067200200" "2024-01-02"
                          (cardWith [log_0930_1030] "11:00" "12:00"))))))
     = Some [log_0930_1030].
Proof.
  assert (Hin : In (TaskCard.OnUpdate
        (Task.with_logs
           [log_0930_1030;
            TaskLog.mk "1704067200200" "2024-01-01" "11:00" "12:00" (Num 60)]
           (Num 120)
           (TaskCard.localTask (cardWith [log_0930_1030] "11:00" "12:00"))))
     (snd (TaskCard.handleAddLog (R := es_runtime) None "1704067200200"
             "2024-01-02" (cardWith [log_0930_1030] "11:00" "12:00"))))
    by (left; reflexivity).
  split; [exact Hin|].
  apply (proj1 (X20_add_then_delete_log (R := es_runtime) None "1704067200200"
                  "2024-01-02" (cardWith [log_0930_1030] "11:00" "12:00") _
                  log_0930_1030_other_id Hin)).
Defined.

(* ================================================================== *)
(** * Adding and updating tasks from the page *)

Lemma incompleteTasks_length tasks :
  List.length (Page.incompleteTasks tasks)
  = List.length (filter Page.incomplete_ tasks).
Proof.
  unfold Page.incompleteTasks. apply Permutation_length. apply sort_perm.
Qed.

(** X21.  [handleAddTask], when the store takes the write: the created
    task has the generated id, an [order] equal to the number of
    incomplete tasks of the day, no logs and a totalDuration of 0; the
    store holds it and stays in key order.  If the task is ad-hoc, or was
    given neither startDate nor endDate, and its [date] is a well-formed
    date, the resolver shows the created task on that date. *)
Theorem X21_handleAddTask_created `{R : JsRuntime}
        (now : string) (task : Task.t) (tasks : list Task.t)
        (store store' : Db.Store) (created : Task.t) :
  store_sorted store ->
  Page.handleAddTask now task tasks store = Some (created, store') ->
  Task.id created = now
  /\ Task.order created = Z.of_nat (List.length (filter Page.incomplete_ tasks))
  /\ Task.logs created = Some []
  /\ totalDuration_ok created
  /\ In created store' /\ store_sorted store'
  /\ (forall cd,
         parseDateOnly (Task.date task) = Some cd ->
         Task.isAdHoc task = true
         \/ truthy (Task.startDate task) || truthy (Task.endDate task) = false ->
         Page.shouldTaskAppearOnDate created (Task.date task) = true).
Proof.
  intros Hs. unfold Page.handleAddTask, Db.addTask. cbn [Task.id Task.title
    Task.description Task.date Task.isAdHoc Task.order Task.completed
    Task.completedAt Task.deadline Task.startDate Task.endDate Task.logs
    Task.totalDuration logs_or_empty or_zero].
  destruct (Db.hasKey store now); [discriminate|].
  intros [= <- <-].
  split; [reflexivity|].
  split; [cbn [Task.order]; rewrite incompleteTasks_length; reflexivity|].
  split; [reflexivity|]. split; [reflexivity|].
  split; [apply put_In; [exact Hs | left; reflexivity]|].
  split; [apply put_sorted; exact Hs|].
  intros cd Hcd Hcase.
  pose proof (parseDateOnly_truthy _ _ Hcd) as Htd.
  destruct (Task.isAdHoc task) eqn:Ha.
  - rewrite shouldTaskAppearOnDate_adhoc by reflexivity. apply String.eqb_refl.
  - destruct Hcase as [Hcase | Hcase]; [discriminate|].
    apply orb_false_iff in Hcase as [Hsd Hed].
    rewrite shouldTaskAppearOnDate_range; cbn [Task.isAdHoc Task.startDate Task.endDate].
    + rewrite (date_or_falsy _ _ Hsd Htd), (date_or_falsy _ _ Hed Htd). simpl.
      rewrite (proj2 (Date_parse_le_iff _ _ cd cd Hcd Hcd) (cal_le_refl cd)).
      reflexivity.
    + reflexivity.
    + rewrite (date_or_falsy _ _ Hsd Htd), (date_or_falsy _ _ Hed Htd), Htd.
      reflexivity.
Qed.

(** What the task form submits for an ad-hoc task due on 2024-01-05
    with 40 estimated hours, on the day 2024-01-05. *)
Definition taskSubmitted : Task.t :=
  Task.mk "6f1c2a0e-0d5b-4a3e-9a51-2f8a3c1d7b90" "F" "ad-hoc task" "2024-01-05"
          true 0 false None (Some "2024-01-05") (Some "2024-01-01")
          (Some "2024-01-05") (Some []) (Some (Num 0)).

Lemma X21_witness :
  store_sorted store4
  /\ exists created store',
       Page.handleAddTask "1704067200004" taskSubmitted
         threeTasks store4 = Some (created, store')
       /\ Task.id created = "1704067200004" /\ Task.order created = 2.
Proof.
  split; [exact store4_sorted|].
  eexists. eexists. split; [reflexivity|].
  destruct (X21_handleAddTask_created (R := es_runtime) "1704067200004"
              taskSubmitted threeTasks store4 _ _ store4_sorted eq_refl)
    as (Hid & Hord & _).
  split; [exact Hid | exact Hord].
Defined.





(* ================================================================== *)
(** * Where the date lookup and the resolver agree *)

(** X23.  For a stored task whose id lies in the scanned key range,
    [getTasksByDate] and the resolver give the same verdict on every date
    when the task lacks [startDate] or [endDate], and when it is not
    ad-hoc and its own [date] lies in its range. *)
Theorem X23_lookup_agrees_with_resolver `{R : JsRuntime}
        (store : Db.Store) (d : string) (t : Task.t) :
  Db.store_ok store ->
  In t store ->
  Db.in_bound EmptyString Db.uFFFF (Task.id t) = true ->
  truthy (Task.startDate t) && truthy (Task.endDate t) = false
  \/ (Task.isAdHoc t = false /\ inDateRange (Task.date t) t = true) ->
  In t (Db.getTasksByDate store d) <-> Page.shouldTaskAppearOnDate t d = true.
Proof.
  intros Hok Hin Hb Hcase.
  rewrite (getTasksByDate_In store d t Hok).
  unfold Page.shouldTaskAppearOnDate, inDateRange in *.
  destruct Hcase as [Hno | [Ha Hown]].
  - rewrite Hno. simpl.
    destruct (Task.isAdHoc t); rewrite String.eqb_eq; split; intros H;
      try tauto; destruct H as [_ [H | [_ H]]]; try discriminate; exact H.
  - rewrite Ha.
    apply andb_true_iff in Hown as [Ht Hown]. rewrite Ht in *. simpl.
    split.
    + intros [_ [<- | [_ H]]]; [exact Hown | exact H].
    + intros H. split; [exact Hin|]. right. split; [exact Hb | exact H].
Qed.

Lemma X23_witness :
  Db.store_ok store4
  /\ (In taskA (Db.getTasksByDate (R := es_runtime) store4 "2024-01-06")
      <-> Page.shouldTaskAppearOnDate (R := es_runtime) taskA "2024-01-06" = true).
Proof.
  pose proof (store_sorted_ok store4 store4_sorted) as Hok.
  split; [exact Hok|].
  apply (X23_lookup_agrees_with_resolver (R := es_runtime) store4 "2024-01-06"
           taskA Hok (or_introl eq_refl) eq_refl).
  right. split; reflexivity.
Defined.

(* ================================================================== *)
(** * The rows of a weekday sheet *)

(** The number of rows that a task contributes to a sheet. *)
Definition rowsOf (task : Task.t) : nat :=
  match Task.logs task with
  | Some ((_ :: _) as logs) => List.length logs
  | _ => 1%nat
  end.

Lemma taskRows_length task : List.length (Page.taskRows task) = rowsOf task.
Proof.
  unfold Page.taskRows, rowsOf.
  destruct (Task.logs task) as [[|l logs]|]; try reflexivity.
  apply List.length_map.
Qed.

Lemma taskRows_rows task row :
  In row (Page.taskRows task) ->
  Page.col_name row = Task.title task
  /\ Page.col_status row = (if Task.completed task then "已完成" else "进行中").
Proof.
  unfold Page.taskRows.
  destruct (Task.logs task) as [[|l logs]|].
  - intros [<- | []]. split; reflexivity.
  - intros Hin. apply in_map_iff in Hin as (log & <- & _). split; reflexivity.
  - intros [<- | []]. split; reflexivity.
Qed.

Lemma flat_map_length {A B : Type} (f : A -> list B) l :
  List.length (flat_map f l) = list_sum (map (fun x => List.length (f x)) l).
Proof.
  induction l as [|x l IH]; simpl; [reflexivity|].
  rewrite List.length_app, IH. reflexivity.
Qed.

(** X24.  A weekday sheet of the report: with no task visible on the
    day it is the single placeholder row; otherwise it has one row per
    log of every visible task, and one row for a visible task without
    logs, each row carrying the title and the status of its task. *)
Theorem X24_dayRows_rows `{R : JsRuntime} (allTasks : list Task.t) (dateStr : string) :
  let visible :=
    filter (fun task => Page.shouldTaskAppearOnDate task dateStr) allTasks in
  (visible = [] -> Page.dayRows allTasks dateStr = [Page.noTasksRow])
  /\ (visible <> [] ->
      List.length (Page.dayRows allTasks dateStr) = list_sum (map rowsOf visible)
      /\ forall row,
           In row (Page.dayRows allTasks dateStr) ->
           exists task,
             In task visible
             /\ Page.col_name row = Task.title task
             /\ Page.col_status row
                = (if Task.completed task then "已完成" else "进行中")).
Proof.
  cbv zeta. unfold Page.dayRows.
  set (visible := filter (fun task => Page.shouldTaskAppearOnDate task dateStr)
                         allTasks).
  split; [intros ->; reflexivity|].
  intros Hne.
  assert (Hrows : flat_map Page.taskRows visible <> []).
  { destruct visible as [|t v]; [congruence|]. simpl.
    pose proof (taskRows_length t) as Hl. unfold rowsOf in Hl.
    destruct (Page.taskRows t); [|discriminate].
    destruct (Task.logs t) as [[|? ?]|]; simpl in Hl; discriminate Hl. }
  destruct (flat_map Page.taskRows visible) as [|r rows] eqn:E; [congruence|].
  rewrite <- E. split.
  - rewrite flat_map_length. f_equal. apply map_ext. apply taskRows_length.
  - intros row Hin. apply in_flat_map in Hin as (task & Ht & Hrow).
    exists task. split; [exact Ht|]. apply taskRows_rows. exact Hrow.
Qed.

(** Task A with two logs, on a day that shows it. *)
Definition taskA_logged : Task.t :=
  Task.mk "1704067200000" "A" "range task" "2024-01-01" false 0 false None None
          (Some "2024-01-01") (Some "2024-01-05")
          (Some [log_0930_1030; log_1000_1100]) (Some (Num 120)).

Lemma X24_witness :
  filter (fun task => Page.shouldTaskAppearOnDate (R := es_runtime) task "2024-01-02")
         [taskA_logged; taskSomeday] <> []
  /\ List.length (Page.dayRows (R := es_runtime) [taskA_logged; taskSomeday]
                    "2024-01-02") = 2%nat.
Proof.
  assert (Hne : filter (fun task =>
                          Page.shouldTaskAppearOnDate (R := es_runtime) task "2024-01-02")
                       [taskA_logged; taskSomeday] <> []) by discriminate.
  split; [exact Hne|].
  rewrite (proj1 (proj2 (X24_dayRows_rows (R := es_runtime)
                           [taskA_logged; taskSomeday] "2024-01-02") Hne)).
  reflexivity.
Defined.

(** A task with one log gives one row, with the times of that log. *)
Example taskRows_one_log :
  map (fun row => (Page.col_start row, Page.col_end row, Page.col_duration row))
      (Page.taskRows
         (Task.with_logs [log_0930_1030] (Num 60) taskA))
  = [("09:30", "10:30", "1小时0分钟")].
Proof. reflexivity. Qed.
